(** * ib-treading: the chart handler, embedded and verified

    A shallow embedding of [src/chart_handler/chart.py] and of
    [src/config.py], whose constants it imports.  The handler is glue
    between a charting
    widget, a brokerage client and a shared queue, so what there is to
    verify is the sequence of calls it makes on its collaborators and the
    state it leaves behind.  Every method is a computation in a small
    state-and-exception monad over a [World]; the calls made on the
    collaborators are recorded, in order, in the world's [trace]. *)

From Stdlib Require Import ZArith QArith_base Ascii.
From stdpp Require Import gmap strings pretty list fin_maps.

Close Scope Q_scope.
Open Scope Z_scope.

(* ===================================================================== *)
(** ** Data the handler passes around *)
(* ===================================================================== *)

(** Modelled from the spec: the Bar row that the trading client puts on the
    shared queue (timestamp, open, high, low, close, volume); the producer
    of the rows is not among the sources.  Prices are the exact rational
    values of the doubles. *)
Record Bar := {
  bar_time : Z;
  bar_open : Q;
  bar_high : Q;
  bar_low : Q;
  bar_close : Q;
  bar_volume : Z
}.

Definition bar_columns : list string :=
  ["time"; "open"; "high"; "low"; "close"; "volume"].

(** [pd.DataFrame]: a table with named columns and one row per bar. *)
Record DataFrame := {
  df_columns : list string;
  df_rows : list Bar
}.

(** [pd.DataFrame(bars)] for a list of rows: no rows gives a frame with no
    columns either. *)
Definition pd_DataFrame (bars : list Bar) : DataFrame := {|
  df_columns := match bars with [] => [] | _ :: _ => bar_columns end;
  df_rows := bars
|}.

(** [df.empty]: some axis has length 0. *)
Definition df_empty (df : DataFrame) : bool :=
  (length (df_columns df) =? 0)%nat || (length (df_rows df) =? 0)%nat.

(** [ibapi.contract.Contract], the fields the handler assigns. *)
Record Contract := {
  symbol : string;
  secType : string;
  exchange : string;
  currency : string
}.

(** [Contract()] *)
Definition Contract_new : Contract :=
  {| symbol := ""; secType := ""; exchange := ""; currency := "" |}.

Definition set_symbol (v : string) (c : Contract) : Contract :=
  {| symbol := v; secType := secType c; exchange := exchange c;
     currency := currency c |}.
Definition set_secType (v : string) (c : Contract) : Contract :=
  {| symbol := symbol c; secType := v; exchange := exchange c;
     currency := currency c |}.
Definition set_exchange (v : string) (c : Contract) : Contract :=
  {| symbol := symbol c; secType := secType c; exchange := v;
     currency := currency c |}.
Definition set_currency (v : string) (c : Contract) : Contract :=
  {| symbol := symbol c; secType := secType c; exchange := exchange c;
     currency := v |}.

(** [ibapi.order.Order], the fields the handler assigns. *)
Record Order := {
  orderType : string;
  totalQuantity : Z;
  action : string
}.

(** [Order()] *)
Definition Order_new : Order :=
  {| orderType := ""; totalQuantity := 0; action := "" |}.

Definition set_orderType (v : string) (o : Order) : Order :=
  {| orderType := v; totalQuantity := totalQuantity o; action := action o |}.
Definition set_totalQuantity (v : Z) (o : Order) : Order :=
  {| orderType := orderType o; totalQuantity := v; action := action o |}.
Definition set_action (v : string) (o : Order) : Order :=
  {| orderType := orderType o; totalQuantity := totalQuantity o; action := v |}.

(** [ibapi.tag_value.TagValue] *)
Record TagValue := { tag : string; value : string }.

(** The values the client's [order_id] attribute holds: [None] until an id
    has been assigned, an integer afterwards. *)
Inductive PyVal :=
| PNone
| PInt (n : Z).

(** Python truthiness, as used by [if self.client.order_id:]. *)
Definition truthy (v : PyVal) : bool :=
  match v with
  | PNone => false
  | PInt n => negb (n =? 0)
  end.

(** The trading client object, as far as the handler reads it. *)
Record IBClient := { order_id : PyVal }.

(* ===================================================================== *)
(** ** Calls on the collaborators *)
(* ===================================================================== *)

Inductive Level := DEBUG | INFO | WARNING | ERROR.

(** A log message: plain text, or text followed by the repr of a bar. *)
Inductive LogMsg :=
| Text (s : string)
| TextBar (s : string) (b : Bar).

Inductive Event :=
| Log (lvl : Level) (msg : LogMsg)
| ChartSpinner (on : bool)
| ChartSet (df : DataFrame)
| ChartWatermark (text : string)
| ChartScreenshot
| TopbarSet (name v : string)
| ReqHistoricalData (reqId : Z) (contract : Contract)
    (endDateTime durationStr barSizeSetting whatToShow : string)
    (useRTH : bool) (formatDate : Z) (keepUpToDate : bool)
    (chartOptions : list TagValue)
| ReqIds (numIds : Z)
| PlaceOrder (orderId : PyVal) (contract : Contract) (order : Order)
| Sleep (secs : Z).

(** The methods of the handler that the widget can call back. *)
Inductive Callback :=
| on_timeframe_selection_cb
| on_search_cb
| take_screenshot_cb
| place_order_cb.

(** The chart widget, as far as the handler drives it. *)
Record Chart := {
  legend_visible : bool;
  topbar_symbol : string;          (* topbar['symbol'].value *)
  topbar_timeframe : string;       (* topbar['timeframe'].value *)
  switcher_options : list string;
  switcher_func : Callback;
  topbar_button : string * Callback;
  search_handlers : list Callback;
  hotkeys : list (string * string * Callback);
  dataset : option DataFrame;      (* what chart.set last received *)
  watermark : option string;
  spinner : bool
}.

(** [self] *)
Record ChartHandler := {
  chart : Chart;
  client : option IBClient
}.

(** What the client's network thread does while the GUI thread is blocked
    in a [time.sleep]: it stores an order id on the client or puts a bar on
    the shared queue. *)
Inductive NetAction :=
| StoreOrderId (v : PyVal)
| QueuePut (b : Bar).

Record World := {
  handler : ChartHandler;
  data_queue : list Bar;                    (* shared.queue_manager *)
  trace : list Event;                       (* calls made so far *)
  clock : Q;                                (* time.time() *)
  files : gmap string (list Byte.byte);     (* working directory *)
  net : list (list NetAction)               (* one batch per coming sleep *)
}.

(* ===================================================================== *)
(** ** The monad: state, Python exceptions, fuel for [while True] *)
(* ===================================================================== *)

Inductive Exn :=
| Empty                                   (* queue.Empty *)
| AttributeError (type_name attr : string)
| IndexError
| ValueError (literal : string).           (* int() on that string *)

Inductive Outcome (A : Type) :=
| Ret (a : A)
| Raise (e : Exn)
| OutOfFuel.
Arguments Ret {A} a.
Arguments Raise {A} e.
Arguments OutOfFuel {A}.

(** A computation over a state [St].  A raised exception keeps the state
    reached when it was raised, as in Python. *)
Definition M (St A : Type) : Type := St -> Outcome A * St.

Section Monad.
Context {St : Type}.

Definition ret {A} (a : A) : M St A := fun s => (Ret a, s).

Definition raise {A} (e : Exn) : M St A := fun s => (Raise e, s).

Definition bind {A B} (m : M St A) (k : A -> M St B) : M St B :=
  fun s =>
    match m s with
    | (Ret a, s') => k a s'
    | (Raise e, s') => (Raise e, s')
    | (OutOfFuel, s') => (OutOfFuel, s')
    end.

(** [try: body  except <handles>: handler] *)
Definition try_except {A} (body : M St A) (handles : Exn -> bool)
    (handler : M St A) : M St A :=
  fun s =>
    match body s with
    | (Raise e, s') => if handles e then handler s' else (Raise e, s')
    | r => r
    end.

(** [try: body  finally: fin].  The finally clause runs whether or not
    the body raised; what the body raised is re-raised after it. *)
Definition try_finally {A} (body : M St A) (fin : M St unit) : M St A :=
  fun s =>
    match body s with
    | (OutOfFuel, s') => (OutOfFuel, s')
    | (o, s') =>
        match fin s' with
        | (Ret _, s'') => (o, s'')
        | (Raise e, s'') => (Raise e, s'')
        | (OutOfFuel, s'') => (OutOfFuel, s'')
        end
    end.

(** [while True: body], cut off after [fuel] iterations. *)
Fixpoint while_true (fuel : nat) (body : M St unit) : M St unit :=
  match fuel with
  | O => fun s => (OutOfFuel, s)
  | S fuel' => bind body (fun _ => while_true fuel' body)
  end.

End Monad.

Declare Scope py_scope.
Delimit Scope py_scope with py.
Notation "x <- m ;; k" := (bind m (fun x => k))
  (at level 100, m at next level, right associativity) : py_scope.
Notation "m ;; k" := (bind m (fun _ => k))
  (at level 100, right associativity) : py_scope.
Open Scope py_scope.

(** Local variables of a method live next to the world for the duration of
    the call. *)
Section Locals.
Context {L : Type}.

Definition lift {A} (m : M World A) : M (World * L) A :=
  fun s => let '(o, w) := m (fst s) in (o, (w, snd s)).

Definition get_local : M (World * L) L :=
  fun s => (Ret (snd s), s).

Definition set_local (l : L) : M (World * L) unit :=
  fun s => (Ret tt, (fst s, l)).

Definition with_locals {A} (init : L) (m : M (World * L) A) : M World A :=
  fun w => let '(o, s) := m (w, init) in (o, fst s).

End Locals.

(* ===================================================================== *)
(** ** config.py *)
(* ===================================================================== *)

Module Config.

(** [os.getenv(name, default)] over the process environment (as it is
    after [load_dotenv()]). *)
Definition getenv (environ : gmap string string) (name default : string)
  : string :=
  match environ !! name with
  | Some v => v
  | None => default
  end.

(** The module-level constants; chart.py imports [INITIAL_SYMBOL],
    [DEFAULT_TIMEFRAME], [DEFAULT_TIMEFRAME_OPTIONS],
    [DEFAULT_HISTORICAL_DURATION] and [DEFAULT_CURRENCY]. *)
Record t := {
  PYWEBVIEW_GUI : string;
  DEFAULT_HOST : string;
  TRADING_PORT : Z;
  LIVE_TRADING_PORT : Z;
  DEFAULT_CLIENT_ID : Z;
  INITIAL_SYMBOL : string;
  LIVE_TRADING : bool;
  DEFAULT_TIMEFRAME : string;
  DEFAULT_TIMEFRAME_OPTIONS : list string;
  DATA_QUEUE_TIMEOUT : Z;
  DEFAULT_HISTORICAL_DURATION : string;
  DEFAULT_CURRENCY : string
}.

Section ModuleBody.

(** Python's [int] on a string: the integer the string denotes, [None]
    where [int] raises [ValueError]. *)
Variable int : string -> option Z.

(** [os.getenv(name, default)] with a string default, as a step of the
    module body. *)
Definition os_getenv (name default : string)
  : M (gmap string string) string :=
  fun environ => (Ret (getenv environ name default), environ).

(** [int(os.getenv(name, default))] with an integer default: the string of
    a variable that is set goes through [int], which raises [ValueError]
    when the string is no integer literal; when the variable is not set
    [os.getenv] returns the integer default, which [int] returns as it
    is. *)
Definition int_os_getenv (name : string) (default : Z)
  : M (gmap string string) Z :=
  fun environ =>
    match environ !! name with
    | Some v =>
        match int v with
        | Some n => (Ret n, environ)
        | None => (Raise (ValueError v), environ)
        end
    | None => (Ret default, environ)
    end.

(** The module body, run once at import. *)
Definition load : M (gmap string string) t :=
  pywebview_gui <- os_getenv "PYWEBVIEW_GUI" "qt" ;;
  default_host <- os_getenv "DEFAULT_HOST" "127.0.0.1" ;;
  trading_port <- int_os_getenv "TRADING_PORT" 7497 ;;
  live_trading_port <- int_os_getenv "LIVE_TRADING_PORT" 7497 ;;
  default_client_id <- int_os_getenv "DEFAULT_CLIENT_ID" 0 ;;
  initial_symbol <- os_getenv "INITIAL_SYMBOL" "AAPL" ;;
  let live_trading := false in
  let trading_port :=
    if live_trading then live_trading_port else trading_port in
  let default_timeframe := "1 min" in
  let default_timeframe_options :=
    ["1 min"; "5 mins"; "15 mins"; "1 hour"] in
  let data_queue_timeout := 5 in
  default_historical_duration <-
    os_getenv "DEFAULT_HISTORICAL_DURATION" "30 D" ;;
  default_currency <- os_getenv "DEFAULT_CURRENCY" "USD" ;;
  ret {| PYWEBVIEW_GUI := pywebview_gui;
         DEFAULT_HOST := default_host;
         TRADING_PORT := trading_port;
         LIVE_TRADING_PORT := live_trading_port;
         DEFAULT_CLIENT_ID := default_client_id;
         INITIAL_SYMBOL := initial_symbol;
         LIVE_TRADING := live_trading;
         DEFAULT_TIMEFRAME := default_timeframe;
         DEFAULT_TIMEFRAME_OPTIONS := default_timeframe_options;
         DATA_QUEUE_TIMEOUT := data_queue_timeout;
         DEFAULT_HISTORICAL_DURATION := default_historical_duration;
         DEFAULT_CURRENCY := default_currency |}.

End ModuleBody.

End Config.

(* ===================================================================== *)
(** ** The collaborators *)
(* ===================================================================== *)

Definition set_handler (h : ChartHandler) (w : World) : World :=
  {| handler := h; data_queue := data_queue w; trace := trace w;
     clock := clock w; files := files w; net := net w |}.

Definition set_data_queue (q : list Bar) (w : World) : World :=
  {| handler := handler w; data_queue := q; trace := trace w;
     clock := clock w; files := files w; net := net w |}.

Definition set_trace (t : list Event) (w : World) : World :=
  {| handler := handler w; data_queue := data_queue w; trace := t;
     clock := clock w; files := files w; net := net w |}.

Definition set_clock (c : Q) (w : World) : World :=
  {| handler := handler w; data_queue := data_queue w; trace := trace w;
     clock := c; files := files w; net := net w |}.

Definition set_files (f : gmap string (list Byte.byte)) (w : World) : World :=
  {| handler := handler w; data_queue := data_queue w; trace := trace w;
     clock := clock w; files := f; net := net w |}.

Definition set_net (n : list (list NetAction)) (w : World) : World :=
  {| handler := handler w; data_queue := data_queue w; trace := trace w;
     clock := clock w; files := files w; net := n |}.

Definition set_chart (c : Chart) (w : World) : World :=
  set_handler {| chart := c; client := client (handler w) |} w.

Definition set_client_obj (c : option IBClient) (w : World) : World :=
  set_handler {| chart := chart (handler w); client := c |} w.

Definition chart_with_dataset (d : option DataFrame) (c : Chart) : Chart :=
  {| legend_visible := legend_visible c; topbar_symbol := topbar_symbol c;
     topbar_timeframe := topbar_timeframe c;
     switcher_options := switcher_options c;
     switcher_func := switcher_func c; topbar_button := topbar_button c;
     search_handlers := search_handlers c; hotkeys := hotkeys c;
     dataset := d; watermark := watermark c; spinner := spinner c |}.

Definition chart_with_watermark (t : option string) (c : Chart) : Chart :=
  {| legend_visible := legend_visible c; topbar_symbol := topbar_symbol c;
     topbar_timeframe := topbar_timeframe c;
     switcher_options := switcher_options c;
     switcher_func := switcher_func c; topbar_button := topbar_button c;
     search_handlers := search_handlers c; hotkeys := hotkeys c;
     dataset := dataset c; watermark := t; spinner := spinner c |}.

Definition chart_with_spinner (b : bool) (c : Chart) : Chart :=
  {| legend_visible := legend_visible c; topbar_symbol := topbar_symbol c;
     topbar_timeframe := topbar_timeframe c;
     switcher_options := switcher_options c;
     switcher_func := switcher_func c; topbar_button := topbar_button c;
     search_handlers := search_handlers c; hotkeys := hotkeys c;
     dataset := dataset c; watermark := watermark c; spinner := b |}.

Definition chart_with_symbol (s : string) (c : Chart) : Chart :=
  {| legend_visible := legend_visible c; topbar_symbol := s;
     topbar_timeframe := topbar_timeframe c;
     switcher_options := switcher_options c;
     switcher_func := switcher_func c; topbar_button := topbar_button c;
     search_handlers := search_handlers c; hotkeys := hotkeys c;
     dataset := dataset c; watermark := watermark c; spinner := spinner c |}.

(** Record a call in the trace. *)
Definition emit (e : Event) : M World unit :=
  fun w => (Ret tt, set_trace (trace w ++ [e]) w).

Module logger.
Definition debug (m : LogMsg) : M World unit := emit (Log DEBUG m).
Definition info (m : LogMsg) : M World unit := emit (Log INFO m).
Definition warning (m : LogMsg) : M World unit := emit (Log WARNING m).
Definition error (m : LogMsg) : M World unit := emit (Log ERROR m).
End logger.

(** [data_queue.get_nowait()] *)
Definition get_nowait : M World Bar :=
  fun w =>
    match data_queue w with
    | [] => (Raise Empty, w)
    | b :: q => (Ret b, set_data_queue q w)
    end.

(** The effect of one action of the network thread. *)
Definition net_step (w : World) (a : NetAction) : World :=
  match a with
  | StoreOrderId v =>
      match client (handler w) with
      | Some _ => set_client_obj (Some {| order_id := v |}) w
      | None => w
      end
  | QueuePut b => set_data_queue (data_queue w ++ [b]) w
  end.

(** The network thread performs its next batch of actions. *)
Definition run_net_batch (w : World) : World :=
  match net w with
  | [] => w
  | batch :: rest => foldl net_step (set_net rest w) batch
  end.

(** [time.sleep(secs)]: the GUI thread blocks, the clock advances, and the
    network thread performs its next batch of actions. *)
Definition time_sleep (secs : Z) : M World unit :=
  emit (Sleep secs) ;;
  fun w =>
    (Ret tt, run_net_batch (set_clock (Qplus (clock w) (inject_Z secs)) w)).

(** [time.time()] *)
Definition time_time : M World Q := fun w => (Ret (clock w), w).

Module chart_api.
(** [self.chart.spinner(on)] *)
Definition spinner (on : bool) : M World unit :=
  emit (ChartSpinner on) ;;
  fun w => (Ret tt, set_chart (chart_with_spinner on (chart (handler w))) w).

(** [self.chart.set(df)] *)
Definition set (df : DataFrame) : M World unit :=
  emit (ChartSet df) ;;
  fun w =>
    (Ret tt, set_chart (chart_with_dataset (Some df) (chart (handler w))) w).

(** [self.chart.watermark(text)] *)
Definition watermark (text : string) : M World unit :=
  emit (ChartWatermark text) ;;
  fun w =>
    (Ret tt,
     set_chart (chart_with_watermark (Some text) (chart (handler w))) w).

(** [self.chart.screenshot()] *)
Definition screenshot (render : Chart -> list Byte.byte)
  : M World (list Byte.byte) :=
  emit ChartScreenshot ;;
  fun w => (Ret (render (chart (handler w))), w).

(** [chart.topbar['symbol'].value] *)
Definition topbar_symbol_value : M World string :=
  fun w => (Ret (topbar_symbol (chart (handler w))), w).

(** [chart.topbar['timeframe'].value] *)
Definition topbar_timeframe_value : M World string :=
  fun w => (Ret (topbar_timeframe (chart (handler w))), w).

(** [chart.topbar['symbol'].set(v)] *)
Definition topbar_symbol_set (v : string) : M World unit :=
  emit (TopbarSet "symbol" v) ;;
  fun w => (Ret tt, set_chart (chart_with_symbol v (chart (handler w))) w).
End chart_api.

Module client_api.
(** [self.client.<attr>]: attribute lookup on the handle, which raises
    when the handle is still [None]. *)
Definition getattr (attr : string) : M World IBClient :=
  fun w =>
    match client (handler w) with
    | Some c => (Ret c, w)
    | None => (Raise (AttributeError "NoneType" attr), w)
    end.

Definition reqHistoricalData (reqId : Z) (contract : Contract)
    (endDateTime durationStr barSizeSetting whatToShow : string)
    (useRTH : bool) (formatDate : Z) (keepUpToDate : bool)
    (chartOptions : list TagValue) : M World unit :=
  getattr "reqHistoricalData" ;;
  emit (ReqHistoricalData reqId contract endDateTime durationStr
          barSizeSetting whatToShow useRTH formatDate keepUpToDate
          chartOptions).

Definition reqIds (numIds : Z) : M World unit :=
  getattr "reqIds" ;;
  emit (ReqIds numIds).

(** [self.client.order_id] *)
Definition get_order_id : M World PyVal :=
  c <- getattr "order_id" ;;
  ret (order_id c).

(** [self.client.placeOrder(self.client.order_id, contract, order)]: the
    method is looked up first, then the arguments are evaluated. *)
Definition placeOrder_current_id (contract : Contract) (order : Order)
  : M World unit :=
  getattr "placeOrder" ;;
  oid <- get_order_id ;;
  emit (PlaceOrder oid contract order).
End client_api.

(** [with open(name, 'wb') as f: f.write(data)]: the file is created or
    truncated, then holds what was written. *)
Definition write_binary_file (name : string) (data : list Byte.byte)
  : M World unit :=
  fun w =>
    let opened := <[name := []]> (files w) in
    let old := default [] (opened !! name) in
    (Ret tt, set_files (<[name := old ++ data]> opened) w).

(* ===================================================================== *)
(** ** chart_handler/chart.py: class ChartHandler *)
(* ===================================================================== *)

Section Handler.

(** The imported configuration. *)
Variable cfg : Config.t.
(** What [chart.screenshot()] returns for a widget state: the bytes of
    its rendered image. *)
Variable render : Chart -> list Byte.byte.
(** How an f-string formats a float. *)
Variable float_str : Q -> string.

(** [__init__] *)
Definition init : ChartHandler := {|
  chart := {|
    legend_visible := true;
    topbar_symbol := Config.INITIAL_SYMBOL cfg;
    topbar_timeframe := Config.DEFAULT_TIMEFRAME cfg;
    switcher_options := Config.DEFAULT_TIMEFRAME_OPTIONS cfg;
    switcher_func := on_timeframe_selection_cb;
    topbar_button := ("Screenshot", take_screenshot_cb);
    search_handlers := [on_search_cb];
    hotkeys := [("shift", "B", place_order_cb);
                ("shift", "S", place_order_cb)];
    dataset := None;
    watermark := None;
    spinner := false
  |};
  client := None
|}.

(** [set_client] *)
Definition set_client (c : IBClient) : M World unit :=
  fun w => (Ret tt, set_client_obj (Some c) w).

(** [request_data] *)
Definition request_data (symbol timeframe : string) : M World unit :=
  logger.info
    (Text ("Requesting bar data for " +:+ symbol +:+ " " +:+ timeframe)) ;;
  chart_api.spinner true ;;
  let contract := Contract_new in
  let contract := set_symbol symbol contract in
  let contract := set_secType "STK" contract in
  let contract := set_exchange "SMART" contract in
  let contract := set_currency (Config.DEFAULT_CURRENCY cfg) contract in
  let what_to_show := "TRADES" in
  client_api.reqHistoricalData
    2 contract
    ""                                        (* endDateTime *)
    (Config.DEFAULT_HISTORICAL_DURATION cfg)  (* durationStr *)
    timeframe                                 (* barSizeSetting *)
    what_to_show                              (* whatToShow *)
    true                                      (* useRTH *)
    2                                         (* formatDate *)
    false                                     (* keepUpToDate *)
    [] ;;                                     (* chartOptions *)
  time_sleep 1 ;;
  chart_api.watermark symbol ;;
  chart_api.spinner false.

(** [on_timeframe_selection]; the widget passes the handler's own chart. *)
Definition on_timeframe_selection : M World unit :=
  symbol <- chart_api.topbar_symbol_value ;;
  timeframe <- chart_api.topbar_timeframe_value ;;
  logger.info
    (Text ("Selected timeframe: " +:+ timeframe +:+ " for " +:+ symbol)) ;;
  request_data symbol timeframe.

(** [on_search]; the widget passes the handler's own chart. *)
Definition on_search (searched_string : string) : M World unit :=
  logger.info (Text ("Searching for symbol: " +:+ searched_string)) ;;
  timeframe <- chart_api.topbar_timeframe_value ;;
  request_data searched_string timeframe ;;
  chart_api.topbar_symbol_set searched_string.

(** The body of the [while True] loop of [update_chart]; the local
    variable is [bars]. *)
Definition drain_body : M (World * list Bar) unit :=
  data <- lift get_nowait ;;
  bars <- get_local ;;
  set_local (bars ++ [data]) ;;                     (* bars.append(data) *)
  bars <- get_local ;;
  match last bars with                              (* bars[-1] *)
  | Some b =>
      lift (logger.debug (TextBar "Received data from the queue: " b))
  | None => raise IndexError
  end.

Definition is_Empty (e : Exn) : bool :=
  match e with Empty => true | _ => false end.

(** [update_chart] *)
Definition update_chart (fuel : nat) : M World unit :=
  with_locals []                                    (* bars = [] *)
    (lift (chart_api.spinner true) ;;
     try_finally
       (try_except
          (lift (logger.info
                   (Text "Updating chart with new data from the queue.")) ;;
           while_true fuel drain_body)
          is_Empty
          (lift (logger.info (Text "No new data in queue."))))
       (bars <- get_local ;;
        let df := pd_DataFrame bars in
        if negb (df_empty df) then lift (chart_api.set df)
        else lift (logger.warning (Text "No data to update the chart."))) ;;
     lift (chart_api.spinner false)).

(** [take_screenshot] *)
Definition take_screenshot (key : string) : M World unit :=
  img <- chart_api.screenshot render ;;
  t <- time_time ;;
  write_binary_file ("screenshot-" +:+ float_str t +:+ ".png") img.

(** [place_order] *)
Definition place_order (key : string) : M World unit :=
  symbol <- chart_api.topbar_symbol_value ;;
  let contract := Contract_new in
  let contract := set_symbol symbol contract in
  let contract := set_secType "STK" contract in
  let contract := set_currency "USD" contract in
  let contract := set_exchange "SMART" contract in
  let order_action := if String.eqb key "B" then "BUY" else "SELL" in
  let order_quantity := 1 in
  client_api.reqIds (-1) ;;
  time_sleep 2 ;;
  oid <- client_api.get_order_id ;;
  if truthy oid then
    logger.info
      (Text ("Placing " +:+ order_action +:+ " order for " +:+
             pretty order_quantity +:+ " shares of " +:+ symbol)) ;;
    let order := Order_new in
    let order := set_orderType "MKT" order in
    let order := set_totalQuantity order_quantity order in
    let order := set_action order_action order in
    client_api.placeOrder_current_id contract order
  else
    logger.error
      (Text "Order ID not received from IB API. Cannot place order.").

End Handler.

(* ===================================================================== *)
(** ** Observations on a run *)
(* ===================================================================== *)

(** The calls a computation makes when run from [w], in order. *)
Definition calls_of {A} (m : M World A) (w : World) : list Event :=
  drop (length (trace w)) (trace (snd (m w))).

Definition is_ChartSet (e : Event) : bool :=
  match e with ChartSet _ => true | _ => false end.

Definition is_ReqHistoricalData (e : Event) : bool :=
  match e with ReqHistoricalData _ _ _ _ _ _ _ _ _ _ => true | _ => false end.

Definition is_ReqIds (e : Event) : bool :=
  match e with ReqIds _ => true | _ => false end.

Definition is_PlaceOrder (e : Event) : bool :=
  match e with PlaceOrder _ _ _ => true | _ => false end.

Definition is_TopbarSet (e : Event) : bool :=
  match e with TopbarSet _ _ => true | _ => false end.

Definition is_Log (l : Level) (e : Event) : bool :=
  match e, l with
  | Log DEBUG _, DEBUG | Log INFO _, INFO
  | Log WARNING _, WARNING | Log ERROR _, ERROR => true
  | _, _ => false
  end.

(** The rows the chart displays: those of the table last given to
    [chart.set], none before the first call. *)
Definition displayed_rows (w : World) : list Bar :=
  match dataset (chart (handler w)) with
  | Some df => df_rows df
  | None => []
  end.

(** The debug line the drain loop logs for a bar. *)
Definition received (b : Bar) : Event :=
  Log DEBUG (TextBar "Received data from the queue: " b).

(** What a drain leaves behind when [shown] is the table the chart ends up
    with and [evs] are the calls made. *)
Definition after_drain (w : World) (shown : option DataFrame)
    (evs : list Event) : World :=
  {| handler :=
       {| chart :=
            chart_with_spinner false
              (chart_with_dataset shown (chart (handler w)));
          client := client (handler w) |};
     data_queue := [];
     trace := trace w ++ evs;
     clock := clock w;
     files := files w;
     net := net w |}.

(** The world in which the GUI thread wakes up from [time.sleep(secs)]
    started in [w], the [Sleep] call left aside. *)
Definition woken (secs : Z) (w : World) : World :=
  run_net_batch (set_clock (Qplus (clock w) (inject_Z secs)) w).

(** The historical-data request [request_data] builds. *)
Definition historical_request (cfg : Config.t) (sym timeframe : string)
  : Event :=
  ReqHistoricalData 2
    {| symbol := sym; secType := "STK"; exchange := "SMART";
       currency := Config.DEFAULT_CURRENCY cfg |}
    "" (Config.DEFAULT_HISTORICAL_DURATION cfg) timeframe "TRADES"
    true 2 false [].

(** Every contract sent with an order in [evs] is in currency [cur]. *)
Definition orders_in_currency (cur : string) (evs : list Event) : Prop :=
  Forall (fun e => match e with
                   | PlaceOrder _ ct _ => currency ct = cur
                   | _ => True
                   end) evs.

(** Every contract sent with a historical-data request in [evs] is in
    currency [cur]. *)
Definition requests_in_currency (cur : string) (evs : list Event) : Prop :=
  Forall (fun e => match e with
                   | ReqHistoricalData _ ct _ _ _ _ _ _ _ _ =>
                       currency ct = cur
                   | _ => True
                   end) evs.

(** The order ids a batch of the network thread assigns to the client, in
    order. *)
Definition batch_ids (batch : list NetAction) : list PyVal :=
  flat_map (fun a => match a with StoreOrderId v => [v] | QueuePut _ => [] end)
    batch.

(** The order ids assigned to the client during the next sleep started in
    [w]: for [place_order], within its wait window. *)
Definition next_ids (w : World) : list PyVal :=
  match net w with
  | [] => []
  | batch :: _ => batch_ids batch
  end.

(** An order placed in [w] is dropped: no [placeOrder] call is made and
    exactly one error is logged. *)
Definition order_dropped (key : string) (w : World) : Prop :=
  let calls := calls_of (place_order key) w in
  List.filter is_PlaceOrder calls = [] /\
  exists msg, List.filter (is_Log ERROR) calls = [Log ERROR msg].

(** The full-replace reading of a drain started in [w]: the call returns,
    the chart then displays exactly the bars that were queued, oldest
    first, and the queue is empty. *)
Definition drain_replaces_dataset (fuel : nat) (w : World) : Prop :=
  let r := update_chart fuel w in
  fst r = Ret tt /\
  displayed_rows (snd r) = data_queue w /\
  data_queue (snd r) = [].

(** A search started in [w] issues the request for the searched string at
    the selected timeframe and afterwards sets the displayed symbol. *)
Definition search_requests_then_displays (cfg : Config.t)
    (searched_string : string) (w : World) : Prop :=
  let r := on_search cfg searched_string w in
  let calls := calls_of (on_search cfg searched_string) w in
  List.filter (fun e => is_ReqHistoricalData e || is_TopbarSet e) calls
    = [historical_request cfg searched_string
         (topbar_timeframe (chart (handler w)));
       TopbarSet "symbol" searched_string] /\
  topbar_symbol (chart (handler (snd r))) = searched_string.

(* ===================================================================== *)
(** ** Sample worlds *)
(* ===================================================================== *)

(** The constants as config.py defines them when no variable is set. *)
Definition default_cfg : Config.t := {|
  Config.PYWEBVIEW_GUI := "qt";
  Config.DEFAULT_HOST := "127.0.0.1";
  Config.TRADING_PORT := 7497;
  Config.LIVE_TRADING_PORT := 7497;
  Config.DEFAULT_CLIENT_ID := 0;
  Config.INITIAL_SYMBOL := "AAPL";
  Config.LIVE_TRADING := false;
  Config.DEFAULT_TIMEFRAME := "1 min";
  Config.DEFAULT_TIMEFRAME_OPTIONS := ["1 min"; "5 mins"; "15 mins"; "1 hour"];
  Config.DATA_QUEUE_TIMEOUT := 5;
  Config.DEFAULT_HISTORICAL_DURATION := "30 D";
  Config.DEFAULT_CURRENCY := "USD"
|}.

(** The constants when the environment sets DEFAULT_CURRENCY to EUR and
    nothing else. *)
Definition euro_cfg : Config.t := {|
  Config.PYWEBVIEW_GUI := "qt";
  Config.DEFAULT_HOST := "127.0.0.1";
  Config.TRADING_PORT := 7497;
  Config.LIVE_TRADING_PORT := 7497;
  Config.DEFAULT_CLIENT_ID := 0;
  Config.INITIAL_SYMBOL := "AAPL";
  Config.LIVE_TRADING := false;
  Config.DEFAULT_TIMEFRAME := "1 min";
  Config.DEFAULT_TIMEFRAME_OPTIONS := ["1 min"; "5 mins"; "15 mins"; "1 hour"];
  Config.DATA_QUEUE_TIMEOUT := 5;
  Config.DEFAULT_HISTORICAL_DURATION := "30 D";
  Config.DEFAULT_CURRENCY := "EUR"
|}.

(** A world in which nothing has happened yet: the handler as [__init__]
    leaves it, an empty queue, no calls made. *)
Definition fresh_world (cfg : Config.t) : World :=
  {| handler := init cfg; data_queue := []; trace := [];
     clock := inject_Z 1700000000; files := ∅; net := [] |}.

(** The fresh world after [set_client], with [batches] to come from the
    network thread. *)
Definition attached_world (cfg : Config.t) (c : IBClient)
    (batches : list (list NetAction)) : World :=
  set_net batches (snd (set_client c (fresh_world cfg))).

Definition bar_at (t : Z) : Bar :=
  {| bar_time := t; bar_open := inject_Z 100; bar_high := inject_Z 102;
     bar_low := inject_Z 99; bar_close := inject_Z 101; bar_volume := 5000 |}.

(** A chart that already displays one bar, with nothing queued: the state
    after one drain of a one-bar queue. *)
Definition stale_world : World :=
  snd (update_chart 2 (set_data_queue [bar_at 60] (fresh_world default_cfg))).

(** An environment for paper trading, and the constants
    config.py defines under it. *)
Definition paper_environ : gmap string string :=
  {[ "TRADING_PORT" := "4002"; "INITIAL_SYMBOL" := "SAP";
     "DEFAULT_CURRENCY" := "" ]}.

Definition paper_cfg : Config.t := {|
  Config.PYWEBVIEW_GUI := "qt";
  Config.DEFAULT_HOST := "127.0.0.1";
  Config.TRADING_PORT := 4002;
  Config.LIVE_TRADING_PORT := 7497;
  Config.DEFAULT_CLIENT_ID := 0;
  Config.INITIAL_SYMBOL := "SAP";
  Config.LIVE_TRADING := false;
  Config.DEFAULT_TIMEFRAME := "1 min";
  Config.DEFAULT_TIMEFRAME_OPTIONS := ["1 min"; "5 mins"; "15 mins"; "1 hour"];
  Config.DATA_QUEUE_TIMEOUT := 5;
  Config.DEFAULT_HISTORICAL_DURATION := "30 D";
  Config.DEFAULT_CURRENCY := ""
|}.

(** A rendering, and a float format that prints whole seconds. *)
Definition blank_png (_ : Chart) : list Byte.byte :=
  [Byte.x89; Byte.x50; Byte.x4e; Byte.x47].

Definition whole_seconds (t : Q) : string :=
  pretty (Qnum t / Zpos (Qden t)) +:+ ".0".

(* ===================================================================== *)
(** ** Further observations *)
(* ===================================================================== *)

Definition is_Sleep (e : Event) : bool :=
  match e with Sleep _ => true | _ => false end.

Definition is_ChartSpinner (e : Event) : bool :=
  match e with ChartSpinner _ => true | _ => false end.

(** The bars a batch of the network thread puts on the queue, in order. *)
Definition batch_puts (batch : list NetAction) : list Bar :=
  flat_map (fun a => match a with QueuePut b => [b] | StoreOrderId _ => [] end)
    batch.

(** The bars the network thread puts on the queue during the next sleep. *)
Definition next_puts (w : World) : list Bar :=
  match net w with
  | [] => []
  | batch :: _ => batch_puts batch
  end.

(** The order id a batch of the network thread leaves on an attached
    client that held [v]. *)
Definition batch_order_id (v : PyVal) (batch : list NetAction) : PyVal :=
  foldl (fun v a => match a with StoreOrderId v' => v' | QueuePut _ => v end)
    v batch.

(** The names of the environment variables that chart.py's imports from
    config.py depend on. *)
Definition config_variables : list string :=
  ["INITIAL_SYMBOL"; "DEFAULT_HISTORICAL_DURATION"; "DEFAULT_CURRENCY"].

(** The names of the environment variables whose value config.py passes
    to [int]. *)
Definition integer_variables : list string :=
  ["TRADING_PORT"; "LIVE_TRADING_PORT"; "DEFAULT_CLIENT_ID"].

(** What chart.py imports from config.py (chart.py, lines 11 to 13). *)
Definition chart_imports (cfg : Config.t)
  : string * string * list string * string * string :=
  (Config.INITIAL_SYMBOL cfg, Config.DEFAULT_TIMEFRAME cfg,
   Config.DEFAULT_TIMEFRAME_OPTIONS cfg,
   Config.DEFAULT_HISTORICAL_DURATION cfg, Config.DEFAULT_CURRENCY cfg).

Definition is_ChartWatermark (e : Event) : bool :=
  match e with ChartWatermark _ => true | _ => false end.

(** A call of [m] in [w] got stuck behind the spinner: it ended in the
    [AttributeError] of the lookup of [reqHistoricalData] on [None], the
    one spinner or watermark call it made was [spinner(True)], which was
    also its last call, and it left the widget with the spinner on and the
    watermark and the displayed symbol as they were. *)
Definition stuck_spinning {A} (m : M World A) (w : World) : Prop :=
  fst (m w) = Raise (AttributeError "NoneType" "reqHistoricalData") /\
  List.filter (fun e => is_ChartSpinner e || is_ChartWatermark e)
    (calls_of m w) = [ChartSpinner true] /\
  last (calls_of m w) = Some (ChartSpinner true) /\
  spinner (chart (handler (snd (m w)))) = true /\
  watermark (chart (handler (snd (m w)))) = watermark (chart (handler w)) /\
  topbar_symbol (chart (handler (snd (m w))))
    = topbar_symbol (chart (handler w)).

(** Python's [int] on a string of ASCII characters, for the examples: white
    space around (tab to carriage return, and the space), an optional sign,
    then decimal digits, with single underscores allowed between digits.
    The interpreter's limit on the number of digits is left out. *)
Definition is_space (a : ascii) : bool :=
  let n := N_of_ascii a in
  ((9 <=? n) && (n <=? 13) || (n =? 32))%N.

Definition digit_value (a : ascii) : option Z :=
  let n := Z.of_N (N_of_ascii a) in
  if (48 <=? n) && (n <=? 57) then Some (n - 48) else None.

Fixpoint lstrip (l : list ascii) : list ascii :=
  match l with
  | [] => []
  | a :: l' => if is_space a then lstrip l' else l
  end.

Fixpoint digits (acc : Z) (after_digit : bool) (l : list ascii) : option Z :=
  match l with
  | [] => if after_digit then Some acc else None
  | a :: l' =>
      match digit_value a with
      | Some d => digits (10 * acc + d) true l'
      | None =>
          if after_digit && Ascii.eqb a "_" then digits acc false l' else None
      end
  end.

Definition int_ascii (s : string) : option Z :=
  let l := rev (lstrip (rev (lstrip (String.list_ascii_of_string s)))) in
  match l with
  | "+"%char :: l' => digits 0 false l'
  | "-"%char :: l' => Z.opp <$> digits 0 false l'
  | _ => digits 0 false l
  end.

(* ===================================================================== *)
(** ** Lemmas: the trace and the network thread *)
(* ===================================================================== *)

Lemma calls_of_app {A} (m : M World A) (w : World) (evs : list Event) :
  trace (snd (m w)) = trace w ++ evs -> calls_of m w = evs.
Proof.
  intros H. unfold calls_of. rewrite H. apply drop_app_length.
Qed.

Lemma calls_of_nil {A} (m : M World A) (w : World) :
  trace (snd (m w)) = trace w -> calls_of m w = [].
Proof.
  intros H. apply calls_of_app. rewrite app_nil_r. exact H.
Qed.

(** The network thread makes no calls of the GUI thread's, leaves the
    widget, the clock and the files alone, and never attaches a client. *)
Lemma net_step_frame (w : World) (a : NetAction) :
  trace (net_step w a) = trace w /\
  chart (handler (net_step w a)) = chart (handler w) /\
  clock (net_step w a) = clock w /\
  files (net_step w a) = files w /\
  net (net_step w a) = net w /\
  (client (handler w) = None -> client (handler (net_step w a)) = None).
Proof.
  destruct w as [[c cl] dq tr ck fs nt], a as [v|b]; cbn;
    destruct cl; cbn; repeat split; congruence.
Qed.

Lemma foldl_net_step_frame (batch : list NetAction) :
  forall w : World,
    trace (foldl net_step w batch) = trace w /\
    chart (handler (foldl net_step w batch)) = chart (handler w) /\
    clock (foldl net_step w batch) = clock w /\
    files (foldl net_step w batch) = files w /\
    net (foldl net_step w batch) = net w /\
    (client (handler w) = None ->
     client (handler (foldl net_step w batch)) = None).
Proof.
  induction batch as [|a batch IH]; intros w; cbn; [tauto|].
  destruct (IH (net_step w a)) as (Ht & Hc & Hk & Hf & Hn & Hcl).
  destruct (net_step_frame w a) as (Ht' & Hc' & Hk' & Hf' & Hn' & Hcl').
  repeat split; try congruence. auto.
Qed.

Lemma run_net_batch_frame (w : World) :
  trace (run_net_batch w) = trace w /\
  chart (handler (run_net_batch w)) = chart (handler w) /\
  clock (run_net_batch w) = clock w /\
  files (run_net_batch w) = files w /\
  (client (handler w) = None -> client (handler (run_net_batch w)) = None).
Proof.
  unfold run_net_batch. destruct (net w) as [|batch rest] eqn:Hnet; [tauto|].
  destruct (foldl_net_step_frame batch (set_net rest w))
    as (Ht & Hc & Hk & Hf & _ & Hcl).
  destruct w as [[c cl] dq tr ck fs nt]; cbn in *. tauto.
Qed.

(** Calls already recorded do not influence the network thread. *)
Lemma net_step_set_trace (t : list Event) (w : World) (a : NetAction) :
  net_step (set_trace t w) a = set_trace t (net_step w a).
Proof.
  destruct w as [[c cl] dq tr ck fs nt], a as [v|b]; cbn;
    destruct cl; reflexivity.
Qed.

Lemma foldl_net_step_set_trace (t : list Event) (batch : list NetAction) :
  forall w : World,
    foldl net_step (set_trace t w) batch
    = set_trace t (foldl net_step w batch).
Proof.
  induction batch as [|a batch IH]; intros w; cbn; [reflexivity|].
  rewrite net_step_set_trace. apply IH.
Qed.

Lemma woken_set_trace (secs : Z) (t : list Event) (w : World) :
  woken secs (set_trace t w) = set_trace t (woken secs w).
Proof.
  unfold woken, run_net_batch.
  destruct w as [h dq tr ck fs nt]; cbn.
  destruct nt as [|batch rest]; [reflexivity|].
  apply (foldl_net_step_set_trace t batch
           {| handler := h; data_queue := dq; trace := tr;
              clock := (ck + inject_Z secs)%Q; files := fs; net := rest |}).
Qed.

Lemma woken_frame (secs : Z) (w : World) :
  trace (woken secs w) = trace w /\
  chart (handler (woken secs w)) = chart (handler w) /\
  files (woken secs w) = files w /\
  (client (handler w) = None -> client (handler (woken secs w)) = None).
Proof.
  unfold woken.
  destruct (run_net_batch_frame
              (set_clock (clock w + inject_Z secs)%Q w))
    as (Ht & Hc & _ & Hf & Hcl).
  destruct w as [[c cl] dq tr ck fs nt]; cbn in *. tauto.
Qed.

Lemma time_sleep_run (secs : Z) (w : World) :
  time_sleep secs w
  = (Ret tt, set_trace (trace w ++ [Sleep secs]) (woken secs w)).
Proof.
  unfold time_sleep, bind, emit. cbn -[run_net_batch].
  rewrite <- woken_set_trace. reflexivity.
Qed.

(* ===================================================================== *)
(** ** Lemmas: what each method does *)
(* ===================================================================== *)

(** [place_order] with a client attached: one [reqIds], the two-second
    wait, then the branch on the truthiness of [order_id]. *)
Lemma place_order_run (key : string) (w : World) (c0 : IBClient) :
  client (handler w) = Some c0 ->
  place_order key w =
    let sym := topbar_symbol (chart (handler w)) in
    let pre := [ReqIds (-1); Sleep 2] in
    match client (handler (woken 2 w)) with
    | None =>
        (Raise (AttributeError "NoneType" "order_id"),
         set_trace (trace w ++ pre) (woken 2 w))
    | Some c =>
        if truthy (order_id c) then
          (Ret tt,
           set_trace
             (trace w ++ pre ++
              [Log INFO
                 (Text ("Placing " +:+
                        (if String.eqb key "B" then "BUY" else "SELL") +:+
                        " order for " +:+ pretty 1 +:+ " shares of " +:+
                        sym));
               PlaceOrder (order_id c)
                 {| symbol := sym; secType := "STK"; exchange := "SMART";
                    currency := "USD" |}
                 {| orderType := "MKT"; totalQuantity := 1;
                    action := if String.eqb key "B" then "BUY" else "SELL" |}])
             (woken 2 w))
        else
          (Ret tt,
           set_trace
             (trace w ++ pre ++
              [Log ERROR
                 (Text "Order ID not received from IB API. Cannot place order.")])
             (woken 2 w))
    end.
Proof.
  intros Hc.
  unfold place_order, client_api.reqIds, client_api.get_order_id,
    client_api.placeOrder_current_id, client_api.getattr,
    chart_api.topbar_symbol_value, logger.info, logger.error, emit, bind, ret.
  rewrite Hc. cbn -[time_sleep pretty]. rewrite time_sleep_run.
  rewrite woken_set_trace.
  destruct (woken_frame 2 w) as (Ht & _).
  destruct (woken 2 w) as [[ch cl] dq tr ck fs nt] eqn:E. cbn in Ht. subst tr.
  destruct cl as [c|]; cbn -[pretty]; [|rewrite <- !app_assoc; reflexivity].
  destruct (truthy (order_id c)); cbn -[pretty];
    rewrite <- !app_assoc; reflexivity.
Qed.

(** [place_order] before a client is attached: the lookup of [reqIds] on
    [None] raises, and nothing else has happened. *)
Lemma place_order_no_client (key : string) (w : World) :
  client (handler w) = None ->
  place_order key w = (Raise (AttributeError "NoneType" "reqIds"), w).
Proof.
  intros Hc.
  unfold place_order, client_api.reqIds, client_api.getattr,
    chart_api.topbar_symbol_value, bind.
  rewrite Hc. reflexivity.
Qed.

(** [request_data] with a client attached: it returns, having made these
    calls, and leaves the widget with the watermark set and the spinner
    off. *)
Lemma request_data_run (cfg : Config.t) (sym timeframe : string)
    (w : World) (c : IBClient) :
  client (handler w) = Some c ->
  let r := request_data cfg sym timeframe w in
  fst r = Ret tt /\
  trace (snd r) =
    trace w ++
    [Log INFO
       (Text ("Requesting bar data for " +:+ sym +:+ " " +:+ timeframe));
     ChartSpinner true;
     historical_request cfg sym timeframe;
     Sleep 1;
     ChartWatermark sym;
     ChartSpinner false] /\
  chart (handler (snd r)) =
    chart_with_spinner false
      (chart_with_watermark (Some sym)
         (chart_with_spinner true (chart (handler w)))).
Proof.
  intros Hc.
  unfold request_data, client_api.reqHistoricalData, client_api.getattr,
    chart_api.spinner, chart_api.watermark, logger.info, emit, bind.
  cbn -[time_sleep]. rewrite Hc. cbn -[time_sleep]. rewrite time_sleep_run.
  destruct w as [[ch cl] dq tr ck fs nt]; cbn in Hc |- *.
  match goal with |- context [woken 1 ?x] =>
    destruct (woken_frame 1 x) as (Ht & Hch & _);
    destruct (woken 1 x) as [[ch1 cl1] dq1 tr1 ck1 fs1 nt1]
  end.
  cbn in Ht, Hch; subst tr1 ch1. cbn. unfold historical_request.
  rewrite <- !app_assoc. auto.
Qed.

(** [request_data] before a client is attached: the spinner has been
    switched on when the lookup of [reqHistoricalData] on [None] raises. *)
Lemma request_data_no_client (cfg : Config.t) (sym timeframe : string)
    (w : World) :
  client (handler w) = None ->
  request_data cfg sym timeframe w =
    (Raise (AttributeError "NoneType" "reqHistoricalData"),
     set_chart (chart_with_spinner true (chart (handler w)))
       (set_trace
          (trace w ++
           [Log INFO
              (Text ("Requesting bar data for " +:+ sym +:+ " " +:+
                     timeframe));
            ChartSpinner true])
          w)).
Proof.
  intros Hc.
  unfold request_data, client_api.reqHistoricalData, client_api.getattr,
    chart_api.spinner, logger.info, emit, bind.
  destruct w as [[ch cl] dq tr ck fs nt]; cbn in Hc |- *. subst cl.
  rewrite <- !app_assoc. reflexivity.
Qed.

(* ===================================================================== *)
(** ** Lemmas: draining the queue *)
(* ===================================================================== *)

(** With more fuel than queued bars, the loop takes every bar, oldest
    first, and ends on the [queue.Empty] raised by [get_nowait]. *)
Lemma while_true_drain (q : list Bar) :
  forall (fuel : nat) (w : World) (bars : list Bar),
    data_queue w = q ->
    (length q < fuel)%nat ->
    while_true fuel drain_body (w, bars) =
      (Raise Empty,
       (set_trace (trace w ++ map received q) (set_data_queue [] w),
        bars ++ q)).
Proof.
  induction q as [|b q IH]; intros fuel w bars Hq Hfuel.
  - destruct fuel as [|fuel]; [simpl in Hfuel; lia|].
    destruct w as [h dq tr ck fs nt]; simpl in Hq; subst dq.
    cbn. rewrite !app_nil_r. reflexivity.
  - destruct fuel as [|fuel]; [simpl in Hfuel; lia|].
    destruct w as [h dq tr ck fs nt]; simpl in Hq; subst dq.
    cbn [while_true]. unfold bind at 1.
    assert (Hstep :
      drain_body
        ({| handler := h; data_queue := b :: q; trace := tr; clock := ck;
            files := fs; net := nt |}, bars) =
      (Ret tt,
       ({| handler := h; data_queue := q; trace := tr ++ [received b];
           clock := ck; files := fs; net := nt |}, bars ++ [b]))).
    { unfold drain_body, bind, lift, get_local, set_local; cbn.
      rewrite last_snoc. reflexivity. }
    rewrite Hstep.
    erewrite IH; [|reflexivity|simpl in Hfuel; lia].
    cbn. rewrite <- !app_assoc. reflexivity.
Qed.

Lemma filter_received_ChartSet (q : list Bar) :
  List.filter is_ChartSet (map received q) = [].
Proof. induction q as [|b q IH]; [reflexivity | exact IH]. Qed.

Lemma filter_received_DEBUG (q : list Bar) :
  List.filter (is_Log DEBUG) (map received q) = map received q.
Proof.
  induction q as [|b q IH]; [reflexivity|].
  cbn. f_equal. exact IH.
Qed.

(** [update_chart] on a queue that holds at least one bar. *)
Lemma update_chart_nonempty (fuel : nat) (w : World) :
  data_queue w <> [] ->
  (length (data_queue w) < fuel)%nat ->
  update_chart fuel w =
    (Ret tt,
     after_drain w (Some (pd_DataFrame (data_queue w)))
       ([ChartSpinner true;
         Log INFO (Text "Updating chart with new data from the queue.")]
        ++ map received (data_queue w)
        ++ [Log INFO (Text "No new data in queue.");
            ChartSet (pd_DataFrame (data_queue w));
            ChartSpinner false])).
Proof.
  intros Hne Hfuel.
  destruct w as [h dq tr ck fs nt]; cbn in Hne, Hfuel.
  unfold update_chart, with_locals, try_finally, try_except, bind, lift.
  cbn -[while_true].
  erewrite while_true_drain; [|reflexivity|exact Hfuel].
  destruct dq as [|b q]; [congruence|].
  cbn. unfold after_drain. cbn.
  rewrite <- !app_assoc. reflexivity.
Qed.

(** [update_chart] on an empty queue. *)
Lemma update_chart_empty (fuel : nat) (w : World) :
  data_queue w = [] ->
  (0 < fuel)%nat ->
  update_chart fuel w =
    (Ret tt,
     after_drain w (dataset (chart (handler w)))
       [ChartSpinner true;
        Log INFO (Text "Updating chart with new data from the queue.");
        Log INFO (Text "No new data in queue.");
        Log WARNING (Text "No data to update the chart.");
        ChartSpinner false]).
Proof.
  intros Hq Hfuel.
  destruct w as [h dq tr ck fs nt]; cbn in Hq; subst dq.
  unfold update_chart, with_locals, try_finally, try_except, bind, lift.
  cbn -[while_true].
  erewrite while_true_drain; [|reflexivity|exact Hfuel].
  cbn. unfold after_drain. cbn.
  rewrite <- !app_assoc. reflexivity.
Qed.


(** [on_search] logs, then runs [request_data] for the searched string at
    the selected timeframe, and sets the symbol only if that returned. *)
Lemma on_search_unfold (cfg : Config.t) (searched_string : string)
    (w : World) :
  on_search cfg searched_string w =
    match
      request_data cfg searched_string (topbar_timeframe (chart (handler w)))
        (set_trace
           (trace w ++
            [Log INFO (Text ("Searching for symbol: " +:+ searched_string))])
           w)
    with
    | (Ret _, w1) => chart_api.topbar_symbol_set searched_string w1
    | (Raise e, w1) => (Raise e, w1)
    | (OutOfFuel, w1) => (OutOfFuel, w1)
    end.
Proof. destruct w as [[ch cl] dq tr ck fs nt]. reflexivity. Qed.

(** [on_search] with a client attached. *)
Lemma on_search_run (cfg : Config.t) (searched_string : string)
    (w : World) (c : IBClient) :
  client (handler w) = Some c ->
  let r := on_search cfg searched_string w in
  let timeframe := topbar_timeframe (chart (handler w)) in
  fst r = Ret tt /\
  trace (snd r) =
    trace w ++
    [Log INFO (Text ("Searching for symbol: " +:+ searched_string));
     Log INFO
       (Text ("Requesting bar data for " +:+ searched_string +:+ " " +:+
              timeframe));
     ChartSpinner true;
     historical_request cfg searched_string timeframe;
     Sleep 1;
     ChartWatermark searched_string;
     ChartSpinner false;
     TopbarSet "symbol" searched_string] /\
  topbar_symbol (chart (handler (snd r))) = searched_string.
Proof.
  intros Hc r timeframe. subst r timeframe.
  rewrite on_search_unfold.
  set (w0 := set_trace _ w).
  destruct (request_data_run cfg searched_string
              (topbar_timeframe (chart (handler w))) w0 c)
    as (Hret & Htr & _).
  { subst w0. destruct w as [[ch cl] dq tr ck fs nt]. exact Hc. }
  destruct (request_data cfg searched_string
              (topbar_timeframe (chart (handler w))) w0) as [o w1].
  cbn in Hret, Htr. subst o.
  unfold chart_api.topbar_symbol_set, emit, bind.
  destruct w1 as [[ch1 cl1] dq1 tr1 ck1 fs1 nt1]. cbn in Htr |- *.
  subst tr1 w0.
  destruct w as [[ch cl] dq tr ck fs nt]. cbn.
  rewrite <- !app_assoc. repeat split.
Qed.

(** [on_search] before a client is attached: the exception of
    [request_data] passes through, and the symbol is not set. *)
Lemma on_search_no_client (cfg : Config.t) (searched_string : string)
    (w : World) :
  client (handler w) = None ->
  let r := on_search cfg searched_string w in
  fst r = Raise (AttributeError "NoneType" "reqHistoricalData") /\
  trace (snd r) =
    trace w ++
    [Log INFO (Text ("Searching for symbol: " +:+ searched_string));
     Log INFO
       (Text ("Requesting bar data for " +:+ searched_string +:+ " " +:+
              topbar_timeframe (chart (handler w))));
     ChartSpinner true] /\
  topbar_symbol (chart (handler (snd r))) = topbar_symbol (chart (handler w)).
Proof.
  intros Hc r. subst r.
  rewrite on_search_unfold.
  rewrite request_data_no_client
    by (destruct w as [[ch cl] dq tr ck fs nt]; exact Hc).
  destruct w as [[ch cl] dq tr ck fs nt]. cbn.
  rewrite <- !app_assoc. repeat split.
Qed.

(** [take_screenshot]: one capture, and the file of that name then holds
    the captured bytes. *)
Lemma take_screenshot_run (render : Chart -> list Byte.byte)
    (float_str : Q -> string) (key : string) (w : World) :
  take_screenshot render float_str key w =
    (Ret tt,
     set_files
       (<["screenshot-" +:+ float_str (clock w) +:+ ".png"
          := render (chart (handler w))]> (files w))
       (set_trace (trace w ++ [ChartScreenshot]) w)).
Proof.
  unfold take_screenshot, chart_api.screenshot, time_time,
    write_binary_file, emit, bind.
  destruct w as [[ch cl] dq tr ck fs nt]. cbn.
  rewrite lookup_insert_eq. cbn. rewrite insert_insert_eq. reflexivity.
Qed.

(* ===================================================================== *)
(** ** Theorems: update_chart *)
(* ===================================================================== *)

(** C1 (as stated, refuted): when nothing is queued and the chart already
    displays a bar, a drain returns with that bar still displayed; the
    dataset is not replaced by the (empty) sequence of drained bars. *)
Lemma update_chart_keeps_dataset_on_empty_queue :
  data_queue stale_world = [] /\
  displayed_rows stale_world = [bar_at 60] /\
  displayed_rows (snd (update_chart 1 stale_world)) = [bar_at 60] /\
  ~ drain_replaces_dataset 1 stale_world.
Proof.
  repeat split; try reflexivity.
  intros (_ & Hrows & _). vm_compute in Hrows. discriminate Hrows.
Qed.

(** C1 (amended): for every non-empty sequence of bars queued when
    [update_chart] is called, the drain takes each of them without blocking
    until [queue.Empty] is raised, the call returns, [chart.set] is called
    once, with the table of exactly those bars in arrival order, whatever
    was displayed before, and the queue is empty afterwards. *)
Theorem update_chart_replaces_dataset (fuel : nat) (w : World) :
  data_queue w <> [] ->
  (length (data_queue w) < fuel)%nat ->
  let calls := calls_of (update_chart fuel) w in
  drain_replaces_dataset fuel w /\
  dataset (chart (handler (snd (update_chart fuel w))))
    = Some (pd_DataFrame (data_queue w)) /\
  List.filter is_ChartSet calls = [ChartSet (pd_DataFrame (data_queue w))] /\
  List.filter (is_Log DEBUG) calls = map received (data_queue w) /\
  In (Log INFO (Text "No new data in queue.")) calls.
Proof.
  intros Hne Hfuel calls.
  assert (Hcalls : calls =
    [ChartSpinner true;
     Log INFO (Text "Updating chart with new data from the queue.")]
    ++ map received (data_queue w)
    ++ [Log INFO (Text "No new data in queue.");
        ChartSet (pd_DataFrame (data_queue w));
        ChartSpinner false]).
  { apply calls_of_app. rewrite update_chart_nonempty by assumption.
    reflexivity. }
  unfold drain_replaces_dataset.
  rewrite update_chart_nonempty by assumption. rewrite Hcalls.
  repeat split.
  - cbn [app List.filter is_ChartSet]. rewrite List.filter_app.
    rewrite filter_received_ChartSet. reflexivity.
  - cbn [app List.filter is_Log]. rewrite List.filter_app.
    rewrite filter_received_DEBUG. cbn. apply app_nil_r.
  - apply in_or_app. right. apply in_or_app. right. left. reflexivity.
Qed.

Lemma update_chart_replaces_dataset_witness :
  let w := set_data_queue [bar_at 60; bar_at 120] stale_world in
  (data_queue w <> [] /\ (length (data_queue w) < 3)%nat) /\
  displayed_rows (snd (update_chart 3 w)) = [bar_at 60; bar_at 120].
Proof.
  intros w. split.
  - split; [discriminate | vm_compute; lia].
  - destruct (update_chart_replaces_dataset 3 w)
      as ((_ & Hrows & _) & _); [discriminate | vm_compute; lia |].
    exact Hrows.
Defined.

(** C5: when the queue is empty, [update_chart] returns normally, makes no
    [chart.set] call and leaves the displayed dataset as it was, and logs
    one warning and no error. *)
Theorem update_chart_empty_queue (fuel : nat) (w : World) :
  data_queue w = [] ->
  (0 < fuel)%nat ->
  let r := update_chart fuel w in
  let calls := calls_of (update_chart fuel) w in
  fst r = Ret tt /\
  dataset (chart (handler (snd r))) = dataset (chart (handler w)) /\
  List.filter is_ChartSet calls = [] /\
  List.filter (is_Log WARNING) calls
    = [Log WARNING (Text "No data to update the chart.")] /\
  List.filter (is_Log ERROR) calls = [].
Proof.
  intros Hq Hfuel r calls.
  assert (Hcalls : calls =
    [ChartSpinner true;
     Log INFO (Text "Updating chart with new data from the queue.");
     Log INFO (Text "No new data in queue.");
     Log WARNING (Text "No data to update the chart.");
     ChartSpinner false]).
  { apply calls_of_app. rewrite update_chart_empty by assumption.
    reflexivity. }
  subst r. rewrite update_chart_empty by assumption. rewrite Hcalls.
  repeat split.
Qed.

Lemma update_chart_empty_queue_witness :
  (data_queue stale_world = [] /\ (0 < 1)%nat) /\
  fst (update_chart 1 stale_world) = Ret tt /\
  displayed_rows (snd (update_chart 1 stale_world)) = [bar_at 60].
Proof.
  split; [split; [reflexivity | lia]|].
  destruct (update_chart_empty_queue 1 stale_world eq_refl ltac:(lia))
    as (Hret & Hds & _).
  split; [exact Hret|].
  unfold displayed_rows. rewrite Hds. reflexivity.
Defined.

(* ===================================================================== *)
(** ** Theorems: request_data *)
(* ===================================================================== *)

(** C2: with the client set, [request_data symbol timeframe] returns having
    issued exactly one historical-data request: request id 2, a contract
    for that symbol with secType STK, exchange SMART and the configured
    default currency, empty end time, the configured duration, the
    requested timeframe as bar size, TRADES, regular trading hours only,
    date format 2 (Unix timestamps), not kept up to date, no chart
    options. *)
Theorem request_data_issues_one_request (cfg : Config.t)
    (sym timeframe : string) (w : World) (c : IBClient) :
  client (handler w) = Some c ->
  fst (request_data cfg sym timeframe w) = Ret tt /\
  List.filter is_ReqHistoricalData
    (calls_of (request_data cfg sym timeframe) w)
  = [ReqHistoricalData 2
       {| symbol := sym; secType := "STK"; exchange := "SMART";
          currency := Config.DEFAULT_CURRENCY cfg |}
       "" (Config.DEFAULT_HISTORICAL_DURATION cfg) timeframe "TRADES"
       true 2 false []].
Proof.
  intros Hc.
  destruct (request_data_run cfg sym timeframe w c Hc) as (Hret & Htr & _).
  split; [exact Hret|].
  rewrite (calls_of_app _ _ _ Htr). reflexivity.
Qed.

Lemma request_data_issues_one_request_witness :
  let w := attached_world default_cfg {| order_id := PNone |} [] in
  client (handler w) = Some {| order_id := PNone |} /\
  List.filter is_ReqHistoricalData
    (calls_of (request_data default_cfg "AAPL" "5 mins") w)
  = [ReqHistoricalData 2
       {| symbol := "AAPL"; secType := "STK"; exchange := "SMART";
          currency := "USD" |}
       "" "30 D" "5 mins" "TRADES" true 2 false []].
Proof.
  intros w. split; [reflexivity|].
  apply (request_data_issues_one_request default_cfg "AAPL" "5 mins" w
           {| order_id := PNone |}).
  reflexivity.
Defined.

(* ===================================================================== *)
(** ** Theorems: place_order *)
(* ===================================================================== *)

(** A client present after the wait was attached before it. *)
Lemma client_before_wait (secs : Z) (w : World) (c : IBClient) :
  client (handler (woken secs w)) = Some c ->
  exists c0, client (handler w) = Some c0.
Proof.
  intros Hc. destruct (client (handler w)) as [c0|] eqn:E; [eauto|].
  destruct (woken_frame secs w) as (_ & _ & _ & Hnone).
  rewrite (Hnone E) in Hc. discriminate Hc.
Qed.

(** [place_order] when [order_id] is truthy after the wait. *)
Lemma place_order_truthy (key : string) (w : World) (c : IBClient) :
  client (handler (woken 2 w)) = Some c ->
  truthy (order_id c) = true ->
  fst (place_order key w) = Ret tt /\
  calls_of (place_order key) w =
    [ReqIds (-1); Sleep 2;
     Log INFO
       (Text ("Placing " +:+
              (if String.eqb key "B" then "BUY" else "SELL") +:+
              " order for " +:+ pretty 1 +:+ " shares of " +:+
              topbar_symbol (chart (handler w))));
     PlaceOrder (order_id c)
       {| symbol := topbar_symbol (chart (handler w)); secType := "STK";
          exchange := "SMART"; currency := "USD" |}
       {| orderType := "MKT"; totalQuantity := 1;
          action := if String.eqb key "B" then "BUY" else "SELL" |}].
Proof.
  intros Hc Ht.
  destruct (client_before_wait 2 w c Hc) as (c0 & Hc0).
  assert (Hrun := place_order_run key w c0 Hc0).
  cbv zeta in Hrun. rewrite Hc, Ht in Hrun.
  split; [rewrite Hrun; reflexivity|].
  apply calls_of_app. rewrite Hrun.
  destruct (woken 2 w) as [h dq tr ck fs nt]. reflexivity.
Qed.

(** [place_order] when [order_id] is falsy after the wait: the order is
    dropped, and the world is the one the wait left but for the calls. *)
Lemma place_order_falsy (key : string) (w : World) (c : IBClient) :
  client (handler (woken 2 w)) = Some c ->
  truthy (order_id c) = false ->
  place_order key w =
    (Ret tt,
     set_trace
       (trace w ++
        [ReqIds (-1); Sleep 2;
         Log ERROR
           (Text "Order ID not received from IB API. Cannot place order.")])
       (woken 2 w)).
Proof.
  intros Hc Ht.
  destruct (client_before_wait 2 w c Hc) as (c0 & Hc0).
  assert (Hrun := place_order_run key w c0 Hc0).
  cbv zeta in Hrun. rewrite Hc, Ht in Hrun. exact Hrun.
Qed.

Lemma place_order_falsy_calls (key : string) (w : World) (c : IBClient) :
  client (handler (woken 2 w)) = Some c ->
  truthy (order_id c) = false ->
  calls_of (place_order key) w =
    [ReqIds (-1); Sleep 2;
     Log ERROR
       (Text "Order ID not received from IB API. Cannot place order.")].
Proof.
  intros Hc Ht. apply calls_of_app.
  rewrite (place_order_falsy key w c Hc Ht).
  destruct (woken 2 w) as [h dq tr ck fs nt]. reflexivity.
Qed.

(** C3: when the client's [order_id] holds a present (truthy) value [n]
    after the two-second wait, [place_order] returns having made exactly
    one [placeOrder] call, with that id, a market order for quantity 1, and
    action BUY when the key is "B" and SELL when it is "S". *)
Theorem place_order_submits_once (key : string) (w : World) (c : IBClient)
    (n : Z) :
  client (handler (woken 2 w)) = Some c ->
  order_id c = PInt n ->
  n <> 0 ->
  let side := if String.eqb key "B" then "BUY" else "SELL" in
  fst (place_order key w) = Ret tt /\
  List.filter is_PlaceOrder (calls_of (place_order key) w)
  = [PlaceOrder (PInt n)
       {| symbol := topbar_symbol (chart (handler w)); secType := "STK";
          exchange := "SMART"; currency := "USD" |}
       {| orderType := "MKT"; totalQuantity := 1; action := side |}] /\
  (key = "B" -> side = "BUY") /\
  (key = "S" -> side = "SELL").
Proof.
  intros Hc Hid Hn side.
  assert (Ht : truthy (order_id c) = true).
  { rewrite Hid. cbn. apply negb_true_iff, Z.eqb_neq, Hn. }
  destruct (place_order_truthy key w c Hc Ht) as (Hret & Hcalls).
  split; [exact Hret|]. split.
  - rewrite Hcalls, Hid. reflexivity.
  - subst side. split; intros ->; reflexivity.
Qed.

Lemma place_order_submits_once_witness :
  let w := attached_world default_cfg {| order_id := PNone |}
             [[StoreOrderId (PInt 42)]] in
  (client (handler (woken 2 w)) = Some {| order_id := PInt 42 |} /\
   42 <> 0) /\
  List.filter is_PlaceOrder (calls_of (place_order "S") w)
  = [PlaceOrder (PInt 42)
       {| symbol := "AAPL"; secType := "STK"; exchange := "SMART";
          currency := "USD" |}
       {| orderType := "MKT"; totalQuantity := 1; action := "SELL" |}].
Proof.
  intros w. split; [split; [reflexivity | discriminate]|].
  apply (place_order_submits_once "S" w {| order_id := PInt 42 |} 42);
    [reflexivity | reflexivity | discriminate].
Defined.

(** C4 (as stated, refuted): an order id assigned during the wait of one
    order is still on the client at the next order.  No id is assigned
    within the wait window of that second order, and yet it is not
    dropped: it is submitted under the id of the first, and no error is
    logged. *)
Lemma place_order_submits_under_earlier_id :
  let w := attached_world default_cfg {| order_id := PNone |}
             [[StoreOrderId (PInt 42)]; []] in
  let w1 := snd (place_order "B" w) in
  let calls := calls_of (place_order "S") w1 in
  next_ids w1 = [] /\
  fst (place_order "S" w1) = Ret tt /\
  List.filter is_PlaceOrder calls
  = [PlaceOrder (PInt 42)
       {| symbol := "AAPL"; secType := "STK"; exchange := "SMART";
          currency := "USD" |}
       {| orderType := "MKT"; totalQuantity := 1; action := "SELL" |}] /\
  List.filter (is_Log ERROR) calls = [] /\
  ~ order_dropped "S" w1.
Proof.
  intros w w1 calls. repeat split; try reflexivity.
  intros (Hnone & _). vm_compute in Hnone. discriminate Hnone.
Qed.

(** C4 (amended): when no order id has been assigned on the client by the
    end of the wait ([order_id] is still [None] then), [place_order]
    returns having made no [placeOrder] call and logged exactly one error;
    it asked for ids once, made no further call after the error, and left
    nothing behind: the world is the one the wait left, but for the
    recorded calls. *)
Theorem place_order_without_id_drops_order (key : string) (w : World)
    (c : IBClient) :
  client (handler (woken 2 w)) = Some c ->
  order_id c = PNone ->
  let r := place_order key w in
  let calls := calls_of (place_order key) w in
  fst r = Ret tt /\
  List.filter is_PlaceOrder calls = [] /\
  List.filter (is_Log ERROR) calls
  = [Log ERROR
       (Text "Order ID not received from IB API. Cannot place order.")] /\
  List.filter is_ReqIds calls = [ReqIds (-1)] /\
  last calls
  = Some (Log ERROR
            (Text "Order ID not received from IB API. Cannot place order.")) /\
  snd r = set_trace (trace w ++ calls) (woken 2 w).
Proof.
  intros Hc Hid r calls.
  assert (Ht : truthy (order_id c) = false) by (rewrite Hid; reflexivity).
  subst r calls.
  rewrite (place_order_falsy_calls key w c Hc Ht).
  rewrite (place_order_falsy key w c Hc Ht).
  repeat split.
Qed.

Lemma place_order_without_id_drops_order_witness :
  let w := attached_world default_cfg {| order_id := PNone |} [] in
  (client (handler (woken 2 w)) = Some {| order_id := PNone |}) /\
  List.filter is_PlaceOrder (calls_of (place_order "B") w) = [] /\
  List.filter (is_Log ERROR) (calls_of (place_order "B") w)
  = [Log ERROR
       (Text "Order ID not received from IB API. Cannot place order.")].
Proof.
  intros w. split; [reflexivity|].
  destruct (place_order_without_id_drops_order "B" w {| order_id := PNone |}
              eq_refl eq_refl) as (_ & Hnone & Herr & _).
  split; [exact Hnone | exact Herr].
Defined.

(** C10: when [order_id] holds 0 after the wait, the truthiness test takes
    it for absent: [place_order] returns having made no [placeOrder] call
    and logged the error, although an id did arrive. *)
Theorem place_order_id_zero_is_absent (key : string) (w : World)
    (c : IBClient) :
  client (handler (woken 2 w)) = Some c ->
  order_id c = PInt 0 ->
  let calls := calls_of (place_order key) w in
  truthy (order_id c) = false /\
  fst (place_order key w) = Ret tt /\
  List.filter is_PlaceOrder calls = [] /\
  List.filter (is_Log ERROR) calls
  = [Log ERROR
       (Text "Order ID not received from IB API. Cannot place order.")].
Proof.
  intros Hc Hid calls.
  assert (Ht : truthy (order_id c) = false) by (rewrite Hid; reflexivity).
  subst calls.
  rewrite (place_order_falsy_calls key w c Hc Ht).
  rewrite (place_order_falsy key w c Hc Ht).
  repeat split. exact Ht.
Qed.

Lemma place_order_id_zero_is_absent_witness :
  let w := attached_world default_cfg {| order_id := PNone |}
             [[StoreOrderId (PInt 0)]] in
  (client (handler (woken 2 w)) = Some {| order_id := PInt 0 |}) /\
  List.filter is_PlaceOrder (calls_of (place_order "B") w) = [] /\
  List.filter (is_Log ERROR) (calls_of (place_order "B") w)
  = [Log ERROR
       (Text "Order ID not received from IB API. Cannot place order.")].
Proof.
  intros w. split; [reflexivity|].
  destruct (place_order_id_zero_is_absent "B" w {| order_id := PInt 0 |}
              eq_refl eq_refl) as (_ & _ & Hnone & Herr).
  split; [exact Hnone | exact Herr].
Defined.

(** C9: the contract [place_order] submits is in currency "USD" whatever
    the configured default currency, unlike the contract of
    [request_data].  When an order id is present after the wait,
    [place_order] submits exactly one contract and its currency is "USD",
    and from the same state [request_data] sends exactly one contract and
    its currency is the configured default; and in every state, every
    contract [place_order] submits is in "USD" and every contract
    [request_data] sends is in the configured default currency. *)
Theorem place_order_currency_is_usd (cfg : Config.t)
    (key sym timeframe : string) (w : World) (c : IBClient) :
  client (handler (woken 2 w)) = Some c ->
  truthy (order_id c) = true ->
  List.filter is_PlaceOrder (calls_of (place_order key) w)
  = [PlaceOrder (order_id c)
       {| symbol := topbar_symbol (chart (handler w)); secType := "STK";
          exchange := "SMART"; currency := "USD" |}
       {| orderType := "MKT"; totalQuantity := 1;
          action := if String.eqb key "B" then "BUY" else "SELL" |}] /\
  List.filter is_ReqHistoricalData
    (calls_of (request_data cfg sym timeframe) w)
  = [ReqHistoricalData 2
       {| symbol := sym; secType := "STK"; exchange := "SMART";
          currency := Config.DEFAULT_CURRENCY cfg |}
       "" (Config.DEFAULT_HISTORICAL_DURATION cfg) timeframe "TRADES"
       true 2 false []] /\
  (forall (key' : string) (w' : World),
     orders_in_currency "USD" (calls_of (place_order key') w')) /\
  (forall (sym' timeframe' : string) (w' : World),
     requests_in_currency (Config.DEFAULT_CURRENCY cfg)
       (calls_of (request_data cfg sym' timeframe') w')).
Proof.
  intros Hc Ht.
  destruct (place_order_truthy key w c Hc Ht) as (_ & Hcalls).
  destruct (client_before_wait 2 w c Hc) as (c0 & Hc0).
  destruct (request_data_run cfg sym timeframe w c0 Hc0) as (_ & Htr & _).
  split; [rewrite Hcalls; reflexivity|].
  split; [rewrite (calls_of_app _ _ _ Htr); reflexivity|].
  split.
  - intros key' w'.
    destruct (client (handler w')) as [c1|] eqn:Hc1.
    + assert (Hrun := place_order_run key' w' c1 Hc1). cbv zeta in Hrun.
      destruct (client (handler (woken 2 w'))) as [c2|];
        [destruct (truthy (order_id c2))|];
        rewrite (calls_of_app (place_order key') w' _
                   ltac:(rewrite Hrun; reflexivity));
        repeat constructor.
    + rewrite (calls_of_nil (place_order key') w'
                 ltac:(rewrite place_order_no_client by exact Hc1;
                       reflexivity)).
      constructor.
  - intros sym' timeframe' w'.
    destruct (client (handler w')) as [c1|] eqn:Hc1.
    + destruct (request_data_run cfg sym' timeframe' w' c1 Hc1)
        as (_ & Htr' & _).
      rewrite (calls_of_app _ _ _ Htr'). repeat constructor.
    + rewrite (calls_of_app (request_data cfg sym' timeframe') w' _
                 ltac:(rewrite request_data_no_client by exact Hc1;
                       destruct w' as [[ch cl] dq tr ck fs nt];
                       reflexivity)).
      repeat constructor.
Qed.

(** Under a configuration whose default currency is EUR, the request is in
    EUR and the order in USD. *)
Lemma place_order_currency_is_usd_witness :
  let w := attached_world euro_cfg {| order_id := PInt 42 |} [] in
  (client (handler (woken 2 w)) = Some {| order_id := PInt 42 |} /\
   truthy (PInt 42) = true) /\
  Config.DEFAULT_CURRENCY euro_cfg = "EUR" /\
  List.filter is_PlaceOrder (calls_of (place_order "B") w)
  = [PlaceOrder (PInt 42)
       {| symbol := "AAPL"; secType := "STK"; exchange := "SMART";
          currency := "USD" |}
       {| orderType := "MKT"; totalQuantity := 1; action := "BUY" |}] /\
  List.filter is_ReqHistoricalData
    (calls_of (request_data euro_cfg "SAP" "1 hour") w)
  = [ReqHistoricalData 2
       {| symbol := "SAP"; secType := "STK"; exchange := "SMART";
          currency := "EUR" |}
       "" "30 D" "1 hour" "TRADES" true 2 false []].
Proof.
  intros w. split; [split; reflexivity|]. split; [reflexivity|].
  destruct (place_order_currency_is_usd euro_cfg "B" "SAP" "1 hour" w
              {| order_id := PInt 42 |} eq_refl eq_refl)
    as (Hord & Hreq & _).
  split; [exact Hord | exact Hreq].
Defined.

(* ===================================================================== *)
(** ** Theorems: the unset client *)
(* ===================================================================== *)

(** C7: while the client handle is still [None], [request_data] and
    [place_order] end in the [AttributeError] of the attribute lookup on
    [None].  Nothing catches it: it is the outcome of the call, no error
    is logged, and no request reaches a client. *)
Theorem unset_client_raises (cfg : Config.t) (key sym timeframe : string)
    (w : World) :
  client (handler w) = None ->
  fst (request_data cfg sym timeframe w)
    = Raise (AttributeError "NoneType" "reqHistoricalData") /\
  calls_of (request_data cfg sym timeframe) w
    = [Log INFO
         (Text ("Requesting bar data for " +:+ sym +:+ " " +:+ timeframe));
       ChartSpinner true] /\
  fst (place_order key w) = Raise (AttributeError "NoneType" "reqIds") /\
  calls_of (place_order key) w = [].
Proof.
  intros Hc. repeat split.
  - rewrite request_data_no_client by exact Hc. reflexivity.
  - apply calls_of_app. rewrite request_data_no_client by exact Hc.
    destruct w as [[ch cl] dq tr ck fs nt]. reflexivity.
  - rewrite place_order_no_client by exact Hc. reflexivity.
  - apply calls_of_nil. rewrite place_order_no_client by exact Hc.
    reflexivity.
Qed.

Lemma unset_client_raises_witness :
  let w := fresh_world default_cfg in
  client (handler w) = None /\
  fst (request_data default_cfg "AAPL" "1 min" w)
    = Raise (AttributeError "NoneType" "reqHistoricalData") /\
  fst (place_order "B" w) = Raise (AttributeError "NoneType" "reqIds").
Proof.
  intros w. split; [reflexivity|].
  destruct (unset_client_raises default_cfg "B" "AAPL" "1 min" w eq_refl)
    as (Hreq & _ & Hord & _).
  split; [exact Hreq | exact Hord].
Defined.

(* ===================================================================== *)
(** ** Theorems: on_search *)
(* ===================================================================== *)

(** C6 (as stated, refuted): a search made before a client is attached
    issues no request and leaves the displayed symbol as it was; the
    [AttributeError] of [request_data] ends [on_search] before the symbol
    is set. *)
Lemma on_search_without_client_sets_no_symbol :
  let w := fresh_world default_cfg in
  fst (on_search default_cfg "MSFT" w)
    = Raise (AttributeError "NoneType" "reqHistoricalData") /\
  topbar_symbol (chart (handler (snd (on_search default_cfg "MSFT" w))))
    = "AAPL" /\
  List.filter is_ReqHistoricalData (calls_of (on_search default_cfg "MSFT") w)
    = [] /\
  ~ search_requests_then_displays default_cfg "MSFT" w.
Proof.
  intros w. repeat split; try reflexivity.
  intros (Hcalls & _). vm_compute in Hcalls. discriminate Hcalls.
Qed.

(** C6 (amended): for every symbol search made with the client set,
    [on_search] issues a historical-data request for the searched string at
    the currently selected timeframe and then sets the displayed symbol to
    the searched string, the request strictly before the display update. *)
Theorem on_search_requests_then_displays (cfg : Config.t)
    (searched_string : string) (w : World) (c : IBClient) :
  client (handler w) = Some c ->
  fst (on_search cfg searched_string w) = Ret tt /\
  search_requests_then_displays cfg searched_string w.
Proof.
  intros Hc.
  destruct (on_search_run cfg searched_string w c Hc) as (Hret & Htr & Hsym).
  split; [exact Hret|]. split; [|exact Hsym].
  rewrite (calls_of_app _ _ _ Htr). reflexivity.
Qed.

Lemma on_search_requests_then_displays_witness :
  let w := attached_world default_cfg {| order_id := PNone |} [] in
  client (handler w) = Some {| order_id := PNone |} /\
  search_requests_then_displays default_cfg "MSFT" w.
Proof.
  intros w. split; [reflexivity|].
  apply (on_search_requests_then_displays default_cfg "MSFT" w
           {| order_id := PNone |}).
  reflexivity.
Defined.

(* ===================================================================== *)
(** ** Theorems: take_screenshot *)
(* ===================================================================== *)

(** C8: [take_screenshot] captures the widget's current rendered image
    once and returns with the file [screenshot-<t>.png] of the working
    directory holding exactly those bytes, [t] being the current Unix time
    as the f-string formats it; no other file changes. *)
Theorem take_screenshot_writes_file (render : Chart -> list Byte.byte)
    (float_str : Q -> string) (key : string) (w : World) :
  let r := take_screenshot render float_str key w in
  let name := "screenshot-" +:+ float_str (clock w) +:+ ".png" in
  fst r = Ret tt /\
  calls_of (take_screenshot render float_str key) w = [ChartScreenshot] /\
  files (snd r) !! name = Some (render (chart (handler w))) /\
  files (snd r) = <[name := render (chart (handler w))]> (files w).
Proof.
  intros r name. subst r name. rewrite take_screenshot_run.
  repeat split.
  - apply calls_of_app. rewrite take_screenshot_run.
    destruct w as [[ch cl] dq tr ck fs nt]. reflexivity.
  - cbn. apply lookup_insert_eq.
Qed.

(** With a clock at 1700000000 and floats printed as whole seconds, the
    file is [screenshot-1700000000.0.png]. *)
Example take_screenshot_file_name :
  files (snd (take_screenshot blank_png whole_seconds "screenshot"
                (fresh_world default_cfg)))
    !! "screenshot-1700000000.0.png"
  = Some [Byte.x89; Byte.x50; Byte.x4e; Byte.x47].
Proof. vm_compute. reflexivity. Qed.

(* ===================================================================== *)
(** ** Further lemmas: the network thread during a wait *)
(* ===================================================================== *)

Lemma foldl_net_step_queue (batch : list NetAction) :
  forall w : World,
    data_queue (foldl net_step w batch) = data_queue w ++ batch_puts batch.
Proof.
  induction batch as [|a batch IH]; intros w; cbn.
  - symmetry. apply app_nil_r.
  - rewrite IH. destruct w as [[ch cl] dq tr ck fs nt], a as [v|b]; cbn.
    + destruct cl; reflexivity.
    + rewrite <- app_assoc. reflexivity.
Qed.

(** Bars already queued stay queued during a wait, in order, and the bars
    the network thread puts come after them. *)
Lemma woken_data_queue (secs : Z) (w : World) :
  data_queue (woken secs w) = data_queue w ++ next_puts w.
Proof.
  unfold woken, run_net_batch, next_puts.
  destruct w as [h dq tr ck fs nt]; cbn.
  destruct nt as [|batch rest]; cbn.
  - symmetry. apply app_nil_r.
  - apply (foldl_net_step_queue batch
             {| handler := h; data_queue := dq; trace := tr;
                clock := (ck + inject_Z secs)%Q; files := fs; net := rest |}).
Qed.

Lemma foldl_net_step_client (batch : list NetAction) :
  forall (w : World) (c : IBClient),
    client (handler w) = Some c ->
    client (handler (foldl net_step w batch))
    = Some {| order_id := batch_order_id (order_id c) batch |}.
Proof.
  induction batch as [|a batch IH]; intros w c Hc; cbn.
  - rewrite Hc. destruct c. reflexivity.
  - destruct w as [[ch cl] dq tr ck fs nt]; cbn in Hc; subst cl.
    destruct a as [v|b]; cbn; erewrite IH by reflexivity; reflexivity.
Qed.

(** An attached client stays attached during a wait; its order id is the
    last one the network thread stored during the wait, or the one it held
    if none was stored. *)
Lemma woken_client (secs : Z) (w : World) (c : IBClient) :
  client (handler w) = Some c ->
  client (handler (woken secs w))
  = Some {| order_id := batch_order_id (order_id c) (hd [] (net w)) |}.
Proof.
  intros Hc. unfold woken, run_net_batch.
  destruct w as [[ch cl] dq tr ck fs nt]; cbn in Hc |- *; subst cl.
  destruct nt as [|batch rest]; cbn.
  - destruct c. reflexivity.
  - erewrite foldl_net_step_client by reflexivity. reflexivity.
Qed.

(** [on_timeframe_selection] reads the symbol and the timeframe off the
    top bar, logs them, and runs [request_data] for them. *)
Lemma on_timeframe_selection_unfold (cfg : Config.t) (w : World) :
  on_timeframe_selection cfg w =
    request_data cfg (topbar_symbol (chart (handler w)))
      (topbar_timeframe (chart (handler w)))
      (set_trace
         (trace w ++
          [Log INFO
             (Text ("Selected timeframe: " +:+
                    topbar_timeframe (chart (handler w)) +:+ " for " +:+
                    topbar_symbol (chart (handler w))))])
         w).
Proof. destruct w as [[ch cl] dq tr ck fs nt]. reflexivity. Qed.

(* ===================================================================== *)
(** ** Further theorems: requests *)
(* ===================================================================== *)

(** X1: with the client set, [on_timeframe_selection] returns having
    issued exactly one historical-data request, for the symbol and the
    timeframe the top bar shows; it leaves both selectors as they were and
    sets the watermark to that symbol. *)
Theorem on_timeframe_selection_requests_shown_pair (cfg : Config.t)
    (w : World) (c : IBClient) :
  client (handler w) = Some c ->
  let r := on_timeframe_selection cfg w in
  let sym := topbar_symbol (chart (handler w)) in
  let timeframe := topbar_timeframe (chart (handler w)) in
  fst r = Ret tt /\
  List.filter is_ReqHistoricalData (calls_of (on_timeframe_selection cfg) w)
  = [ReqHistoricalData 2
       {| symbol := sym; secType := "STK"; exchange := "SMART";
          currency := Config.DEFAULT_CURRENCY cfg |}
       "" (Config.DEFAULT_HISTORICAL_DURATION cfg) timeframe "TRADES"
       true 2 false []] /\
  topbar_symbol (chart (handler (snd r))) = sym /\
  topbar_timeframe (chart (handler (snd r))) = timeframe /\
  watermark (chart (handler (snd r))) = Some sym.
Proof.
  intros Hc r sym timeframe. subst r.
  assert (Hcalls : calls_of (on_timeframe_selection cfg) w
                   = Log INFO
                       (Text ("Selected timeframe: " +:+ timeframe +:+
                              " for " +:+ sym))
                     :: [Log INFO
                           (Text ("Requesting bar data for " +:+ sym +:+
                                  " " +:+ timeframe));
                         ChartSpinner true;
                         historical_request cfg sym timeframe;
                         Sleep 1; ChartWatermark sym; ChartSpinner false]).
  { apply calls_of_app. rewrite on_timeframe_selection_unfold.
    match goal with |- context [request_data cfg ?s ?t ?x] =>
      destruct (request_data_run cfg s t x c) as (_ & Htr & _)
    end.
    { destruct w as [[ch cl] dq tr ck fs nt]. exact Hc. }
    rewrite Htr. destruct w as [[ch cl] dq tr ck fs nt]. cbn.
    rewrite <- app_assoc. reflexivity. }
  rewrite Hcalls. rewrite on_timeframe_selection_unfold.
  match goal with |- context [request_data cfg ?s ?t ?x] =>
    destruct (request_data_run cfg s t x c) as (Hret & _ & Hch)
  end.
  { destruct w as [[ch cl] dq tr ck fs nt]. exact Hc. }
  rewrite Hret, Hch.
  destruct w as [[ch cl] dq tr ck fs nt]. repeat split.
Qed.

Lemma on_timeframe_selection_requests_shown_pair_witness :
  let w := attached_world default_cfg {| order_id := PNone |} [] in
  client (handler w) = Some {| order_id := PNone |} /\
  List.filter is_ReqHistoricalData
    (calls_of (on_timeframe_selection default_cfg) w)
  = [ReqHistoricalData 2
       {| symbol := "AAPL"; secType := "STK"; exchange := "SMART";
          currency := "USD" |}
       "" "30 D" "1 min" "TRADES" true 2 false []].
Proof.
  intros w. split; [reflexivity|].
  destruct (on_timeframe_selection_requests_shown_pair default_cfg w
              {| order_id := PNone |} eq_refl) as (_ & Hreq & _).
  exact Hreq.
Defined.

(** X2: with the client set, [request_data] blocks in exactly one sleep,
    of one second, switches the spinner on and then off, and leaves the
    widget with the spinner off, the watermark set to the symbol, and the
    dataset and both selectors as they were. *)
Theorem request_data_widget_effects (cfg : Config.t) (sym timeframe : string)
    (w : World) (c : IBClient) :
  client (handler w) = Some c ->
  let calls := calls_of (request_data cfg sym timeframe) w in
  let after := chart (handler (snd (request_data cfg sym timeframe w))) in
  List.filter is_Sleep calls = [Sleep 1] /\
  List.filter is_ChartSpinner calls = [ChartSpinner true; ChartSpinner false] /\
  spinner after = false /\
  watermark after = Some sym /\
  dataset after = dataset (chart (handler w)) /\
  topbar_symbol after = topbar_symbol (chart (handler w)) /\
  topbar_timeframe after = topbar_timeframe (chart (handler w)).
Proof.
  intros Hc calls after. subst calls after.
  destruct (request_data_run cfg sym timeframe w c Hc) as (_ & Htr & Hch).
  rewrite (calls_of_app _ _ _ Htr), Hch. repeat split.
Qed.

Lemma request_data_widget_effects_witness :
  let w := attached_world default_cfg {| order_id := PNone |} [] in
  client (handler w) = Some {| order_id := PNone |} /\
  watermark (chart (handler (snd (request_data default_cfg "MSFT" "1 hour" w))))
  = Some "MSFT".
Proof.
  intros w. split; [reflexivity|].
  destruct (request_data_widget_effects default_cfg "MSFT" "1 hour" w
              {| order_id := PNone |} eq_refl) as (_ & _ & _ & Hwm & _).
  exact Hwm.
Defined.

(** X3: while the client handle is [None], a request leaves the spinner
    switched on.  Each of [request_data], [on_search] and
    [on_timeframe_selection] ends in the [AttributeError] of the lookup of
    [reqHistoricalData]; its last call is [spinner(True)], it reaches
    neither [spinner(False)] nor the watermark update, and it leaves the
    spinner on and the watermark and the displayed symbol as they were. *)
Theorem unset_client_leaves_spinner_on (cfg : Config.t)
    (sym timeframe : string) (w : World) :
  client (handler w) = None ->
  stuck_spinning (request_data cfg sym timeframe) w /\
  stuck_spinning (on_search cfg sym) w /\
  stuck_spinning (on_timeframe_selection cfg) w.
Proof.
  intros Hc. unfold stuck_spinning. split; [|split].
  - rewrite (calls_of_app (request_data cfg sym timeframe) w
               [Log INFO
                  (Text ("Requesting bar data for " +:+ sym +:+ " " +:+
                         timeframe));
                ChartSpinner true])
      by (rewrite request_data_no_client by exact Hc;
          destruct w as [[ch cl] dq tr ck fs nt]; reflexivity).
    rewrite request_data_no_client by exact Hc.
    destruct w as [[ch cl] dq tr ck fs nt]. repeat split.
  - destruct (on_search_no_client cfg sym w Hc) as (Hret & Htr & Hsym).
    rewrite (calls_of_app _ _ _ Htr).
    split; [exact Hret|]. split; [reflexivity|]. split; [reflexivity|].
    rewrite on_search_unfold.
    rewrite request_data_no_client
      by (destruct w as [[ch cl] dq tr ck fs nt]; exact Hc).
    destruct w as [[ch cl] dq tr ck fs nt]. repeat split.
  - rewrite (calls_of_app (on_timeframe_selection cfg) w
               [Log INFO
                  (Text ("Selected timeframe: " +:+
                         topbar_timeframe (chart (handler w)) +:+ " for " +:+
                         topbar_symbol (chart (handler w))));
                Log INFO
                  (Text ("Requesting bar data for " +:+
                         topbar_symbol (chart (handler w)) +:+ " " +:+
                         topbar_timeframe (chart (handler w))));
                ChartSpinner true])
      by (rewrite on_timeframe_selection_unfold;
          rewrite request_data_no_client
            by (destruct w as [[ch cl] dq tr ck fs nt]; exact Hc);
          destruct w as [[ch cl] dq tr ck fs nt]; cbn;
          rewrite <- app_assoc; reflexivity).
    rewrite on_timeframe_selection_unfold.
    rewrite request_data_no_client
      by (destruct w as [[ch cl] dq tr ck fs nt]; exact Hc).
    destruct w as [[ch cl] dq tr ck fs nt]. repeat split.
Qed.

Lemma unset_client_leaves_spinner_on_witness :
  let w := fresh_world default_cfg in
  client (handler w) = None /\
  spinner (chart (handler w)) = false /\
  fst (on_search default_cfg "MSFT" w)
    = Raise (AttributeError "NoneType" "reqHistoricalData") /\
  spinner (chart (handler (snd (on_search default_cfg "MSFT" w)))) = true /\
  topbar_symbol (chart (handler (snd (on_search default_cfg "MSFT" w))))
    = "AAPL".
Proof.
  intros w. split; [reflexivity|]. split; [reflexivity|].
  destruct (unset_client_leaves_spinner_on default_cfg "MSFT" "1 min" w
              eq_refl) as (_ & (Hret & _ & _ & Hs & _ & Hsym) & _).
  split; [exact Hret|]. split; [exact Hs | exact Hsym].
Defined.

(* ===================================================================== *)
(** ** Further theorems: construction and attachment *)
(* ===================================================================== *)

(** X4: two-phase construction.  On a handler as [__init__] leaves it,
    the callbacks that need the client ([on_search],
    [on_timeframe_selection], [place_order]) end in an [AttributeError]
    and the displayed symbol stays the configured initial symbol; once
    [set_client] has run, the same callbacks return. *)
Theorem callbacks_need_set_client (cfg : Config.t) (c : IBClient)
    (key searched_string : string) (w : World) :
  handler w = init cfg ->
  let attached := snd (set_client c w) in
  fst (on_search cfg searched_string w)
    = Raise (AttributeError "NoneType" "reqHistoricalData") /\
  fst (on_timeframe_selection cfg w)
    = Raise (AttributeError "NoneType" "reqHistoricalData") /\
  fst (place_order key w) = Raise (AttributeError "NoneType" "reqIds") /\
  topbar_symbol (chart (handler (snd (on_search cfg searched_string w))))
    = Config.INITIAL_SYMBOL cfg /\
  fst (on_search cfg searched_string attached) = Ret tt /\
  fst (on_timeframe_selection cfg attached) = Ret tt /\
  fst (place_order key attached) = Ret tt.
Proof.
  intros Hh attached.
  assert (Hnone : client (handler w) = None) by (rewrite Hh; reflexivity).
  assert (Hsome : client (handler attached) = Some c).
  { subst attached. destruct w as [[ch cl] dq tr ck fs nt]. reflexivity. }
  destruct (on_search_no_client cfg searched_string w Hnone)
    as (Hs & _ & Hsym).
  destruct (on_search_run cfg searched_string attached c Hsome)
    as (Hs' & _ & _).
  assert (Ht : fst (on_timeframe_selection cfg w)
               = Raise (AttributeError "NoneType" "reqHistoricalData")).
  { rewrite on_timeframe_selection_unfold.
    rewrite request_data_no_client
      by (destruct w as [[ch cl] dq tr ck fs nt]; exact Hnone).
    reflexivity. }
  assert (Hp : fst (place_order key w)
               = Raise (AttributeError "NoneType" "reqIds")).
  { rewrite place_order_no_client by exact Hnone. reflexivity. }
  assert (Hi : topbar_symbol
                 (chart (handler (snd (on_search cfg searched_string w))))
               = Config.INITIAL_SYMBOL cfg).
  { rewrite Hsym, Hh. reflexivity. }
  assert (Ht' : fst (on_timeframe_selection cfg attached) = Ret tt).
  { rewrite on_timeframe_selection_unfold.
    match goal with |- context [request_data cfg ?s ?t ?x] =>
      destruct (request_data_run cfg s t x c) as (Hret & _)
    end.
    { destruct attached as [[ch cl] dq tr ck fs nt]. exact Hsome. }
    exact Hret. }
  assert (Hp' : fst (place_order key attached) = Ret tt).
  { assert (Hrun := place_order_run key attached c Hsome). cbv zeta in Hrun.
    rewrite (woken_client 2 attached c Hsome) in Hrun.
    rewrite Hrun.
    destruct (truthy _); reflexivity. }
  exact (conj Hs (conj Ht (conj Hp (conj Hi (conj Hs' (conj Ht' Hp')))))).
Qed.

Lemma callbacks_need_set_client_witness :
  let w := fresh_world default_cfg in
  handler w = init default_cfg /\
  fst (place_order "B" w) = Raise (AttributeError "NoneType" "reqIds") /\
  fst (place_order "B" (snd (set_client {| order_id := PNone |} w))) = Ret tt.
Proof.
  intros w. split; [reflexivity|].
  destruct (callbacks_need_set_client default_cfg {| order_id := PNone |}
              "B" "MSFT" w eq_refl)
    as (_ & _ & Hbefore & _ & _ & _ & Hafter).
  split; [exact Hbefore | exact Hafter].
Defined.

(* ===================================================================== *)
(** ** Further theorems: draining *)
(* ===================================================================== *)

(** X5: whatever is queued, [update_chart] returns: the [queue.Empty] that
    ends the loop never escapes.  Afterwards the queue is empty and the
    spinner is off; the client handle, the selectors and the watermark are
    as they were, and the first and the last call made are the spinner
    being switched on and off. *)
Theorem update_chart_always_returns (fuel : nat) (w : World) :
  (length (data_queue w) < fuel)%nat ->
  let r := update_chart fuel w in
  let calls := calls_of (update_chart fuel) w in
  fst r = Ret tt /\
  data_queue (snd r) = [] /\
  spinner (chart (handler (snd r))) = false /\
  client (handler (snd r)) = client (handler w) /\
  topbar_symbol (chart (handler (snd r))) = topbar_symbol (chart (handler w)) /\
  topbar_timeframe (chart (handler (snd r)))
    = topbar_timeframe (chart (handler w)) /\
  watermark (chart (handler (snd r))) = watermark (chart (handler w)) /\
  head calls = Some (ChartSpinner true) /\
  last calls = Some (ChartSpinner false).
Proof.
  intros Hfuel r calls. subst r calls.
  destruct (data_queue w) as [|b q] eqn:Hq.
  - assert (H0 : (0 < fuel)%nat) by (cbn in Hfuel; lia).
    rewrite (calls_of_app (update_chart fuel) w _
               ltac:(rewrite (update_chart_empty fuel w Hq H0);
                     reflexivity)).
    rewrite (update_chart_empty fuel w Hq H0). repeat split.
  - assert (Hne : data_queue w <> []) by (rewrite Hq; discriminate).
    assert (Hf : (length (data_queue w) < fuel)%nat) by (rewrite Hq; exact Hfuel).
    rewrite (calls_of_app (update_chart fuel) w _
               ltac:(rewrite (update_chart_nonempty fuel w Hne Hf);
                     reflexivity)).
    rewrite (update_chart_nonempty fuel w Hne Hf). repeat split.
    rewrite Hq. cbn [app map].
    rewrite !last_cons. rewrite last_app. reflexivity.
Qed.

Lemma update_chart_always_returns_witness :
  let w := set_data_queue [bar_at 60; bar_at 120] (fresh_world default_cfg) in
  (length (data_queue w) < 3)%nat /\
  fst (update_chart 3 w) = Ret tt /\
  data_queue (snd (update_chart 3 w)) = [].
Proof.
  intros w. split; [vm_compute; lia|].
  destruct (update_chart_always_returns 3 w ltac:(vm_compute; lia))
    as (Hret & Hq & _).
  split; [exact Hret | exact Hq].
Defined.

(** X6: a second drain right after a drain of a non-empty queue finds the
    queue empty: it makes no [chart.set] call, logs the warning, and the
    chart goes on displaying the bars of the first drain. *)
Theorem update_chart_twice_keeps_first_dataset (fuel fuel' : nat)
    (w : World) :
  data_queue w <> [] ->
  (length (data_queue w) < fuel)%nat ->
  (0 < fuel')%nat ->
  let w1 := snd (update_chart fuel w) in
  let r2 := update_chart fuel' w1 in
  let calls2 := calls_of (update_chart fuel') w1 in
  fst r2 = Ret tt /\
  displayed_rows (snd r2) = data_queue w /\
  List.filter is_ChartSet calls2 = [] /\
  List.filter (is_Log WARNING) calls2
  = [Log WARNING (Text "No data to update the chart.")].
Proof.
  intros Hne Hfuel Hfuel' w1 r2 calls2. subst r2 calls2 w1.
  rewrite (update_chart_nonempty fuel w Hne Hfuel). cbn [snd].
  set (w1 := after_drain w _ _).
  assert (Hq1 : data_queue w1 = []) by reflexivity.
  rewrite (calls_of_app (update_chart fuel') w1 _
             ltac:(rewrite (update_chart_empty fuel' w1 Hq1 Hfuel');
                   reflexivity)).
  rewrite (update_chart_empty fuel' w1 Hq1 Hfuel').
  repeat split.
Qed.

Lemma update_chart_twice_keeps_first_dataset_witness :
  let w := set_data_queue [bar_at 60] (fresh_world default_cfg) in
  (data_queue w <> [] /\ (length (data_queue w) < 2)%nat /\ (0 < 1)%nat) /\
  displayed_rows (snd (update_chart 1 (snd (update_chart 2 w))))
  = [bar_at 60].
Proof.
  intros w. split; [split; [discriminate | split; [vm_compute; lia | lia]]|].
  destruct (update_chart_twice_keeps_first_dataset 2 1 w)
    as (_ & Hrows & _); [discriminate | vm_compute; lia | lia |].
  exact Hrows.
Defined.

(** [request_data] with a client attached takes no bar off the queue: the
    queue afterwards holds the bars queued before, followed by those the
    network thread put during the one-second wait. *)
Lemma request_data_queue (cfg : Config.t) (sym timeframe : string)
    (w : World) (c : IBClient) :
  client (handler w) = Some c ->
  data_queue (snd (request_data cfg sym timeframe w))
  = data_queue w ++ next_puts w.
Proof.
  intros Hc.
  unfold request_data, client_api.reqHistoricalData, client_api.getattr,
    chart_api.spinner, chart_api.watermark, logger.info, emit, bind.
  cbn -[time_sleep]. rewrite Hc. cbn -[time_sleep]. rewrite time_sleep_run.
  destruct w as [[ch cl] dq tr ck fs nt]; cbn in Hc |- *.
  match goal with |- context [woken 1 ?x] =>
    assert (Hq := woken_data_queue 1 x);
    destruct (woken 1 x) as [[ch1 cl1] dq1 tr1 ck1 fs1 nt1]
  end.
  cbn in Hq |- *. exact Hq.
Qed.

(** X7: bars that arrive while [request_data] waits are displayed by the
    next drain after the bars that were already queued.  With a client
    attached, [request_data] takes nothing off the queue, and a following
    [update_chart] leaves the chart displaying the bars queued before the
    request followed by the bars the network thread put during the wait, in
    that order, under the watermark of the requested symbol; when there is
    no such bar at all, the chart goes on displaying what it displayed
    before the request. *)
Theorem request_then_drain_displays_arrivals (cfg : Config.t)
    (sym timeframe : string) (fuel : nat) (w : World) (c : IBClient) :
  client (handler w) = Some c ->
  (length (data_queue w ++ next_puts w) < fuel)%nat ->
  let w1 := snd (request_data cfg sym timeframe w) in
  let r := update_chart fuel w1 in
  fst r = Ret tt /\
  data_queue w1 = data_queue w ++ next_puts w /\
  displayed_rows (snd r)
  = match data_queue w ++ next_puts w with
    | [] => displayed_rows w
    | _ :: _ => data_queue w ++ next_puts w
    end /\
  data_queue (snd r) = [] /\
  watermark (chart (handler (snd r))) = Some sym.
Proof.
  intros Hc Hfuel w1 r. subst r.
  assert (Hq : data_queue w1 = data_queue w ++ next_puts w)
    by (apply (request_data_queue cfg sym timeframe w c Hc)).
  destruct (request_data_run cfg sym timeframe w c Hc) as (_ & _ & Hch).
  fold w1 in Hch.
  rewrite <- Hq in Hfuel |- *.
  destruct (data_queue w1) as [|b q] eqn:Hq1.
  - assert (H0 : (0 < fuel)%nat) by (cbn in Hfuel; lia).
    rewrite (update_chart_empty fuel w1 Hq1 H0).
    unfold displayed_rows. cbn. rewrite Hch. repeat split.
  - assert (Hne : data_queue w1 <> []) by (rewrite Hq1; discriminate).
    assert (Hf : (length (data_queue w1) < fuel)%nat)
      by (rewrite Hq1; exact Hfuel).
    rewrite (update_chart_nonempty fuel w1 Hne Hf).
    cbn. rewrite Hch, Hq1. repeat split.
Qed.

Lemma request_then_drain_displays_arrivals_witness :
  let w := set_data_queue [bar_at 60]
             (attached_world default_cfg {| order_id := PNone |}
                [[QueuePut (bar_at 120); QueuePut (bar_at 180)]]) in
  (client (handler w) = Some {| order_id := PNone |} /\
   (length (data_queue w ++ next_puts w) < 4)%nat) /\
  displayed_rows
    (snd (update_chart 4 (snd (request_data default_cfg "AAPL" "1 min" w))))
  = [bar_at 60; bar_at 120; bar_at 180].
Proof.
  intros w.
  split; [split; [reflexivity | vm_compute; lia]|].
  destruct (request_then_drain_displays_arrivals default_cfg "AAPL" "1 min"
              4 w {| order_id := PNone |})
    as (_ & _ & Hrows & _); [reflexivity | vm_compute; lia |].
  exact Hrows.
Defined.

(* ===================================================================== *)
(** ** Further theorems: orders *)
(* ===================================================================== *)

(** [place_order] with a client attached ends in the world the wait left,
    but for the calls it recorded. *)
Lemma place_order_world (key : string) (w : World) (c0 : IBClient) :
  client (handler w) = Some c0 ->
  exists evs, snd (place_order key w)
              = set_trace (trace w ++ evs) (woken 2 w) /\
              (length (List.filter is_PlaceOrder evs) <= 1)%nat.
Proof.
  intros Hc0.
  assert (Hrun := place_order_run key w c0 Hc0). cbv zeta in Hrun.
  rewrite Hrun.
  destruct (client (handler (woken 2 w))) as [c|];
    [destruct (truthy (order_id c))|];
    eexists; (split; [reflexivity | cbn; lia]).
Qed.

(** X8: in every state and for every key, [place_order] leaves the widget
    (symbol, timeframe, dataset, watermark, spinner) and the files as they
    were, takes no bar off the queue, and makes at most one [placeOrder]
    call. *)
Theorem place_order_leaves_widget_alone (key : string) (w : World) :
  let r := place_order key w in
  chart (handler (snd r)) = chart (handler w) /\
  files (snd r) = files w /\
  (exists arrived, data_queue (snd r) = data_queue w ++ arrived) /\
  (length (List.filter is_PlaceOrder (calls_of (place_order key) w)) <= 1)%nat.
Proof.
  intros r. subst r.
  destruct (client (handler w)) as [c0|] eqn:Hc0.
  - destruct (place_order_world key w c0 Hc0) as (evs & Hw & Hle).
    rewrite (calls_of_app (place_order key) w evs
               ltac:(rewrite Hw; reflexivity)).
    rewrite Hw.
    destruct (woken_frame 2 w) as (_ & Hch & Hf & _).
    assert (Hq := woken_data_queue 2 w).
    destruct (woken 2 w) as [[ch cl] dq tr ck fs nt]. cbn in *.
    repeat split; try assumption.
    exists (next_puts w). exact Hq.
  - rewrite (calls_of_nil (place_order key) w
               ltac:(rewrite place_order_no_client by exact Hc0;
                     reflexivity)).
    rewrite place_order_no_client by exact Hc0. cbn.
    repeat split; try lia.
    exists []. symmetry. apply app_nil_r.
Qed.

(** X9: the side of the order is BUY only for the key "B": with a present
    order id, any other key (the hotkey "S", but also a lower-case "b")
    submits a SELL order. *)
Theorem place_order_other_keys_sell (key : string) (w : World)
    (c : IBClient) (n : Z) :
  key <> "B" ->
  client (handler (woken 2 w)) = Some c ->
  order_id c = PInt n ->
  n <> 0 ->
  List.filter is_PlaceOrder (calls_of (place_order key) w)
  = [PlaceOrder (PInt n)
       {| symbol := topbar_symbol (chart (handler w)); secType := "STK";
          exchange := "SMART"; currency := "USD" |}
       {| orderType := "MKT"; totalQuantity := 1; action := "SELL" |}].
Proof.
  intros Hkey Hc Hid Hn.
  assert (Ht : truthy (order_id c) = true).
  { rewrite Hid. cbn. apply negb_true_iff, Z.eqb_neq, Hn. }
  destruct (place_order_truthy key w c Hc Ht) as (_ & Hcalls).
  rewrite Hcalls, Hid.
  apply String.eqb_neq in Hkey. rewrite Hkey. reflexivity.
Qed.

Lemma place_order_other_keys_sell_witness :
  let w := attached_world default_cfg {| order_id := PInt 7 |} [] in
  ("b" <> "B" /\
   client (handler (woken 2 w)) = Some {| order_id := PInt 7 |} /\
   7 <> 0) /\
  List.filter is_PlaceOrder (calls_of (place_order "b") w)
  = [PlaceOrder (PInt 7)
       {| symbol := "AAPL"; secType := "STK"; exchange := "SMART";
          currency := "USD" |}
       {| orderType := "MKT"; totalQuantity := 1; action := "SELL" |}].
Proof.
  intros w.
  split; [split; [discriminate | split; [reflexivity | discriminate]]|].
  apply (place_order_other_keys_sell "b" w {| order_id := PInt 7 |} 7);
    [discriminate | reflexivity | reflexivity | discriminate].
Defined.

(** A batch that assigns no order id leaves the client's id as it was. *)
Lemma batch_order_id_no_ids (batch : list NetAction) :
  forall v : PyVal, batch_ids batch = [] -> batch_order_id v batch = v.
Proof.
  induction batch as [|a batch IH]; intros v Hids; [reflexivity|].
  destruct a as [v'|b]; [discriminate Hids|].
  cbn in Hids |- *. apply IH. exact Hids.
Qed.

(** A wait uses up the next batch of the network thread. *)
Lemma woken_net (secs : Z) (w : World) :
  net (woken secs w) = tl (net w).
Proof.
  unfold woken, run_net_batch.
  destruct w as [h dq tr ck fs nt]; cbn.
  destruct nt as [|batch rest]; [reflexivity|].
  destruct (foldl_net_step_frame batch
              {| handler := h; data_queue := dq; trace := tr;
                 clock := (ck + inject_Z secs)%Q; files := fs; net := rest |})
    as (_ & _ & _ & _ & Hn & _).
  exact Hn.
Qed.

(** X10: [place_order] never changes the order id itself.  If the client
    already holds a present id and the network thread stores no new one
    during the waits of two orders placed in a row (whatever else it does
    meanwhile), both orders are submitted under the same id. *)
Theorem place_order_reuses_stale_id (key1 key2 : string) (w : World)
    (c : IBClient) (n : Z) :
  client (handler w) = Some c ->
  order_id c = PInt n ->
  n <> 0 ->
  flat_map batch_ids (take 2 (net w)) = [] ->
  let both := place_order key1 ;; place_order key2 in
  fst (both w) = Ret tt /\
  map (fun e => match e with
                | PlaceOrder oid _ _ => oid
                | _ => PNone
                end)
      (List.filter is_PlaceOrder (calls_of both w))
  = [PInt n; PInt n].
Proof.
  intros Hc Hid Hn Hids both. subst both.
  assert (Ht : truthy (PInt n) = true)
    by (cbn; apply negb_true_iff, Z.eqb_neq, Hn).
  destruct c as [oid]; cbn in Hid; subst oid.
  assert (Hb : batch_ids (hd [] (net w)) = [] /\
               batch_ids (hd [] (tl (net w))) = []).
  { destruct (net w) as [|b1 [|b2 rest]]; cbn in Hids |- *.
    - split; reflexivity.
    - rewrite app_nil_r in Hids. split; [exact Hids | reflexivity].
    - rewrite app_nil_r in Hids. apply app_eq_nil in Hids. exact Hids. }
  destruct Hb as (Hb1 & Hb2).
  assert (Hcw : client (handler (woken 2 w))
                = Some {| order_id := PInt n |}).
  { rewrite (woken_client 2 w _ Hc). cbn [order_id].
    rewrite (batch_order_id_no_ids _ _ Hb1). reflexivity. }
  assert (Hrun1 := place_order_run key1 w _ Hc). cbv zeta in Hrun1.
  rewrite Hcw in Hrun1. cbn [order_id] in Hrun1. rewrite Ht in Hrun1.
  unfold bind at 1. rewrite Hrun1.
  set (w1 := set_trace _ (woken 2 w)).
  assert (Hc1 : client (handler w1) = Some {| order_id := PInt n |}).
  { subst w1. destruct (woken 2 w) as [[ch cl] dq tr ck fs nt]. exact Hcw. }
  assert (Hnet1 : net w1 = tl (net w)).
  { subst w1. rewrite <- (woken_net 2 w).
    destruct (woken 2 w) as [[ch cl] dq tr ck fs nt]. reflexivity. }
  assert (Hcw1 : client (handler (woken 2 w1))
                 = Some {| order_id := PInt n |}).
  { rewrite (woken_client 2 w1 _ Hc1), Hnet1. cbn [order_id].
    rewrite (batch_order_id_no_ids _ _ Hb2). reflexivity. }
  assert (Hrun2 := place_order_run key2 w1 _ Hc1). cbv zeta in Hrun2.
  rewrite Hcw1 in Hrun2. cbn [order_id] in Hrun2. rewrite Ht in Hrun2.
  split; [rewrite Hrun2; reflexivity|].
  rewrite (calls_of_app (place_order key1 ;; place_order key2) w _
             ltac:(unfold bind at 1; rewrite Hrun1; fold w1; rewrite Hrun2;
                   cbn [snd set_trace trace]; subst w1;
                   cbn [set_trace trace]; rewrite <- app_assoc;
                   reflexivity)).
  reflexivity.
Qed.

Lemma place_order_reuses_stale_id_witness :
  let w := attached_world default_cfg {| order_id := PInt 42 |}
             [[QueuePut (bar_at 60)]; []] in
  (client (handler w) = Some {| order_id := PInt 42 |} /\ 42 <> 0 /\
   flat_map batch_ids (take 2 (net w)) = []) /\
  map (fun e => match e with
                | PlaceOrder oid _ _ => oid
                | _ => PNone
                end)
      (List.filter is_PlaceOrder
         (calls_of (place_order "B" ;; place_order "S") w))
  = [PInt 42; PInt 42].
Proof.
  intros w.
  split; [split; [reflexivity | split; [discriminate | reflexivity]]|].
  destruct (place_order_reuses_stale_id "B" "S" w {| order_id := PInt 42 |}
              42) as (_ & Hids);
    [reflexivity | reflexivity | discriminate | reflexivity |].
  exact Hids.
Defined.

(* ===================================================================== *)
(** ** Further theorems: configuration *)
(* ===================================================================== *)

Lemma getenv_default (environ : gmap string string) (name default_value : string) :
  Config.getenv environ name default_value
  = default default_value (environ !! name).
Proof. unfold Config.getenv. destruct (environ !! name); reflexivity. Qed.

(** An integer setting is not affected by another variable being set. *)
Lemma int_os_getenv_insert_ne (int : string -> option Z)
    (environ : gmap string string) (name v setting : string) (d : Z) :
  name <> setting ->
  fst (Config.int_os_getenv int setting d (<[name := v]> environ))
  = fst (Config.int_os_getenv int setting d environ).
Proof.
  intros Hne. unfold Config.int_os_getenv.
  rewrite lookup_insert_ne by exact Hne.
  destruct (environ !! setting) as [s|]; [destruct (int s)|]; reflexivity.
Qed.

(** An integer setting that is set is what [int] makes of its string. *)
Lemma int_os_getenv_insert_eq (int : string -> option Z)
    (environ : gmap string string) (setting v : string) (d : Z) :
  fst (Config.int_os_getenv int setting d (<[setting := v]> environ))
  = match int v with
    | Some n => Ret n
    | None => Raise (ValueError v)
    end.
Proof.
  unfold Config.int_os_getenv. rewrite lookup_insert_eq.
  destruct (int v); reflexivity.
Qed.

(** An import that succeeds has read its three integer settings, and the
    constants chart.py imports are these. *)
Lemma load_inv (int : string -> option Z) (environ : gmap string string)
    (cfg : Config.t) :
  fst (Config.load int environ) = Ret cfg ->
  (exists tp ltp cid,
     fst (Config.int_os_getenv int "TRADING_PORT" 7497 environ) = Ret tp /\
     fst (Config.int_os_getenv int "LIVE_TRADING_PORT" 7497 environ)
       = Ret ltp /\
     fst (Config.int_os_getenv int "DEFAULT_CLIENT_ID" 0 environ) = Ret cid) /\
  chart_imports cfg
  = (default "AAPL" (environ !! "INITIAL_SYMBOL"), "1 min",
     ["1 min"; "5 mins"; "15 mins"; "1 hour"],
     default "30 D" (environ !! "DEFAULT_HISTORICAL_DURATION"),
     default "USD" (environ !! "DEFAULT_CURRENCY")).
Proof.
  unfold Config.load, Config.int_os_getenv, Config.os_getenv, bind, ret.
  destruct (environ !! "TRADING_PORT") as [s1|]; [destruct (int s1)|];
    destruct (environ !! "LIVE_TRADING_PORT") as [s2|];
    try destruct (int s2);
    destruct (environ !! "DEFAULT_CLIENT_ID") as [s3|];
    try destruct (int s3);
    cbn; intros H; try discriminate H; injection H as <-;
    (split; [eauto 6|]); unfold chart_imports; cbn;
    rewrite !getenv_default; reflexivity.
Qed.

(** The import succeeds when its three integer settings can be read. *)
Lemma load_intro (int : string -> option Z) (environ : gmap string string)
    (tp ltp cid : Z) :
  fst (Config.int_os_getenv int "TRADING_PORT" 7497 environ) = Ret tp ->
  fst (Config.int_os_getenv int "LIVE_TRADING_PORT" 7497 environ) = Ret ltp ->
  fst (Config.int_os_getenv int "DEFAULT_CLIENT_ID" 0 environ) = Ret cid ->
  exists cfg, fst (Config.load int environ) = Ret cfg.
Proof.
  unfold Config.load, Config.int_os_getenv, Config.os_getenv, bind, ret.
  destruct (environ !! "TRADING_PORT") as [s1|]; [destruct (int s1)|];
    destruct (environ !! "LIVE_TRADING_PORT") as [s2|];
    try destruct (int s2);
    destruct (environ !! "DEFAULT_CLIENT_ID") as [s3|];
    try destruct (int s3);
    cbn; intros H1 H2 H3; try discriminate; eauto.
Qed.

(** The import raises what the first integer setting that cannot be read
    raises. *)
Lemma load_raise (int : string -> option Z) (environ : gmap string string)
    (e : Exn) :
  let tp := fst (Config.int_os_getenv int "TRADING_PORT" 7497 environ) in
  let ltp := fst (Config.int_os_getenv int "LIVE_TRADING_PORT" 7497 environ) in
  let cid := fst (Config.int_os_getenv int "DEFAULT_CLIENT_ID" 0 environ) in
  tp = Raise e \/
  ((exists n, tp = Ret n) /\ ltp = Raise e) \/
  ((exists n, tp = Ret n) /\ (exists n, ltp = Ret n) /\ cid = Raise e) ->
  fst (Config.load int environ) = Raise e.
Proof.
  unfold Config.load, Config.int_os_getenv, Config.os_getenv, bind, ret.
  destruct (environ !! "TRADING_PORT") as [s1|]; [destruct (int s1)|];
    destruct (environ !! "LIVE_TRADING_PORT") as [s2|];
    try destruct (int s2);
    destruct (environ !! "DEFAULT_CLIENT_ID") as [s3|];
    try destruct (int s3);
    cbn; intros [H|[(H0 & H)|(H0 & H1 & H)]];
    repeat match goal with
           | H : exists _, _ |- _ => destruct H
           end;
    congruence.
Qed.

(** The sample configurations are what config.py defines under their
    environments, whatever [int] does. *)
Example load_default_cfg (int : string -> option Z) :
  fst (Config.load int ∅) = Ret default_cfg.
Proof. reflexivity. Qed.

Example load_euro_cfg (int : string -> option Z) :
  fst (Config.load int {[ "DEFAULT_CURRENCY" := "EUR" ]}) = Ret euro_cfg.
Proof. vm_compute. reflexivity. Qed.

Example load_paper_cfg :
  fst (Config.load int_ascii paper_environ) = Ret paper_cfg.
Proof. vm_compute. reflexivity. Qed.

(** X11: starting from an environment under which config.py imports,
    setting one more variable, other than INITIAL_SYMBOL,
    DEFAULT_HISTORICAL_DURATION and DEFAULT_CURRENCY, leaves the constants
    chart.py imports as they were (the default timeframe and its options
    cannot be set from the environment), with one exception: when the
    variable is TRADING_PORT, LIVE_TRADING_PORT or DEFAULT_CLIENT_ID and
    [int] rejects the value, the import raises [ValueError] and there are
    no constants at all. *)
Theorem load_ignores_other_variables (int : string -> option Z)
    (environ : gmap string string) (name v : string) (cfg : Config.t) :
  ~ In name config_variables ->
  fst (Config.load int environ) = Ret cfg ->
  let r := fst (Config.load int (<[name := v]> environ)) in
  (In name integer_variables -> int v = None -> r = Raise (ValueError v)) /\
  ((In name integer_variables -> int v <> None) ->
   exists cfg', r = Ret cfg' /\ chart_imports cfg' = chart_imports cfg).
Proof.
  intros Hnot Hload r. subst r.
  destruct (load_inv int environ cfg Hload)
    as ((tp & ltp & cid & H1 & H2 & H3) & Himp).
  unfold config_variables in Hnot. cbn in Hnot.
  assert (Hread : forall setting d n,
            fst (Config.int_os_getenv int setting d environ) = Ret n ->
            (In name integer_variables -> int v <> None) ->
            In setting integer_variables ->
            exists n', fst (Config.int_os_getenv int setting d
                              (<[name := v]> environ)) = Ret n').
  { intros setting d n Hn Hv Hin.
    destruct (decide (name = setting)) as [->|Hne].
    - rewrite int_os_getenv_insert_eq.
      destruct (int v) as [n'|] eqn:Hi; [eauto|]. exfalso. exact (Hv Hin eq_refl).
    - rewrite int_os_getenv_insert_ne by exact Hne. eauto. }
  split.
  - intros Hin Hv. apply load_raise. cbv zeta.
    unfold integer_variables in Hin. cbn in Hin.
    destruct Hin as [<-|[<-|[<-|[]]]].
    + left. rewrite int_os_getenv_insert_eq, Hv. reflexivity.
    + right. left.
      rewrite int_os_getenv_insert_ne by discriminate.
      rewrite int_os_getenv_insert_eq, Hv. eauto.
    + right. right.
      rewrite !int_os_getenv_insert_ne by discriminate.
      rewrite int_os_getenv_insert_eq, Hv. eauto.
  - intros Hv.
    destruct (Hread _ _ _ H1 Hv) as (tp' & H1'); [cbn; tauto|].
    destruct (Hread _ _ _ H2 Hv) as (ltp' & H2'); [cbn; tauto|].
    destruct (Hread _ _ _ H3 Hv) as (cid' & H3'); [cbn; tauto|].
    destruct (load_intro int _ _ _ _ H1' H2' H3') as (cfg' & Hload').
    exists cfg'. split; [exact Hload'|].
    destruct (load_inv int _ cfg' Hload') as (_ & Himp').
    rewrite Himp', Himp.
    rewrite !lookup_insert_ne by (intros ->; tauto).
    reflexivity.
Qed.

Lemma load_ignores_other_variables_witness :
  (~ In "DEFAULT_TIMEFRAME" config_variables /\
   ~ In "TRADING_PORT" config_variables /\
   fst (Config.load int_ascii paper_environ) = Ret paper_cfg) /\
  (exists cfg',
     fst (Config.load int_ascii
            (<["DEFAULT_TIMEFRAME" := "1 hour"]> paper_environ)) = Ret cfg' /\
     Config.DEFAULT_TIMEFRAME cfg' = "1 min") /\
  fst (Config.load int_ascii (<["TRADING_PORT" := "paper"]> paper_environ))
  = Raise (ValueError "paper").
Proof.
  assert (Hnot1 : ~ In "DEFAULT_TIMEFRAME" config_variables)
    by (cbn; intuition discriminate).
  assert (Hnot2 : ~ In "TRADING_PORT" config_variables)
    by (cbn; intuition discriminate).
  assert (Hload : fst (Config.load int_ascii paper_environ) = Ret paper_cfg)
    by (vm_compute; reflexivity).
  split; [split; [exact Hnot1 | split; [exact Hnot2 | exact Hload]]|].
  split.
  - destruct (load_ignores_other_variables int_ascii paper_environ
                "DEFAULT_TIMEFRAME" "1 hour" paper_cfg Hnot1 Hload)
      as (_ & Hsame).
    destruct Hsame as (cfg' & Hload' & Himp).
    { intros Hin. cbn in Hin. exfalso. intuition discriminate. }
    exists cfg'. split; [exact Hload'|].
    unfold chart_imports in Himp. injection Himp as _ Htf _ _ _.
    rewrite Htf. reflexivity.
  - destruct (load_ignores_other_variables int_ascii paper_environ
                "TRADING_PORT" "paper" paper_cfg Hnot2 Hload)
      as (Hraise & _).
    apply Hraise; [cbn; tauto | vm_compute; reflexivity].
Defined.

(** X12: from the environment to the wire.  When config.py imports under
    an environment, then on a handler built by [__init__] under its
    constants, with a client attached, a timeframe selection requests the
    symbol given by INITIAL_SYMBOL (AAPL if unset) at the timeframe
    "1 min", in the currency given by DEFAULT_CURRENCY (USD if unset) and
    for the duration given by DEFAULT_HISTORICAL_DURATION (30 D if unset);
    a variable set to the empty string is used as it is. *)
Theorem environment_reaches_request (int : string -> option Z)
    (environ : gmap string string) (cfg : Config.t) (w : World)
    (c : IBClient) :
  fst (Config.load int environ) = Ret cfg ->
  chart (handler w) = chart (init cfg) ->
  client (handler w) = Some c ->
  List.filter is_ReqHistoricalData (calls_of (on_timeframe_selection cfg) w)
  = [ReqHistoricalData 2
       {| symbol := default "AAPL" (environ !! "INITIAL_SYMBOL");
          secType := "STK"; exchange := "SMART";
          currency := default "USD" (environ !! "DEFAULT_CURRENCY") |}
       "" (default "30 D" (environ !! "DEFAULT_HISTORICAL_DURATION"))
       "1 min" "TRADES" true 2 false []].
Proof.
  intros Hload Hch Hc.
  destruct (load_inv int environ cfg Hload) as (_ & Himp).
  unfold chart_imports in Himp.
  injection Himp as Hsym Htf _ Hdur Hcur.
  rewrite (calls_of_app (on_timeframe_selection cfg) w
             (Log INFO
                (Text ("Selected timeframe: " +:+
                       topbar_timeframe (chart (handler w)) +:+ " for " +:+
                       topbar_symbol (chart (handler w))))
              :: [Log INFO
                    (Text ("Requesting bar data for " +:+
                           topbar_symbol (chart (handler w)) +:+ " " +:+
                           topbar_timeframe (chart (handler w))));
                  ChartSpinner true;
                  historical_request cfg
                    (topbar_symbol (chart (handler w)))
                    (topbar_timeframe (chart (handler w)));
                  Sleep 1;
                  ChartWatermark (topbar_symbol (chart (handler w)));
                  ChartSpinner false])).
  - rewrite Hch.
    cbn -[Config.INITIAL_SYMBOL Config.DEFAULT_TIMEFRAME
          Config.DEFAULT_HISTORICAL_DURATION Config.DEFAULT_CURRENCY].
    unfold historical_request. rewrite Hsym, Htf, Hdur, Hcur. reflexivity.
  - rewrite on_timeframe_selection_unfold.
    match goal with |- context [request_data ?g ?s ?t ?x] =>
      destruct (request_data_run g s t x c) as (_ & Htr & _)
    end.
    { destruct w as [[ch cl] dq tr ck fs nt]. exact Hc. }
    rewrite Htr. destruct w as [[ch cl] dq tr ck fs nt]. cbn.
    rewrite <- app_assoc. reflexivity.
Qed.

Lemma environment_reaches_request_witness :
  let w := attached_world paper_cfg {| order_id := PNone |} [] in
  (fst (Config.load int_ascii paper_environ) = Ret paper_cfg /\
   chart (handler w) = chart (init paper_cfg) /\
   client (handler w) = Some {| order_id := PNone |}) /\
  List.filter is_ReqHistoricalData
    (calls_of (on_timeframe_selection paper_cfg) w)
  = [ReqHistoricalData 2
       {| symbol := "SAP"; secType := "STK"; exchange := "SMART";
          currency := "" |}
       "" "30 D" "1 min" "TRADES" true 2 false []].
Proof.
  intros w.
  assert (Hload : fst (Config.load int_ascii paper_environ) = Ret paper_cfg)
    by (vm_compute; reflexivity).
  split; [split; [exact Hload | split; reflexivity]|].
  rewrite (environment_reaches_request int_ascii paper_environ paper_cfg w
             {| order_id := PNone |} Hload eq_refl eq_refl).
  vm_compute. reflexivity.
Defined.
